(** * Armonia POS backend: inventory stock and cash-register sessions

    A shallow embedding of [inventory.service.ts], [inventory.controller.ts]
    and [cash-register.service.ts], followed by the properties of the stock
    reconciliation engine, the validation layer and the cash-register
    session manager.

    Layout:
    - [Js]: the JavaScript values the services receive ([any]) and the
      built-ins the code calls on them (truthiness, [parseInt],
      [parseFloat], property access);
    - [Store]: the relational store behind [query], one list of rows per
      table, with the exception/state monad the [async] methods run in;
    - [Inventory], [InventoryController], [CashRegister]: the methods of the
      three source files, statement by statement;
    - the theorems. *)

From Stdlib Require Import List String Ascii ZArith QArith Qreduction Qabs Bool Lia.
From Stdlib Require Import Permutation Sorted.
From Stdlib Require Import DecimalString DecimalNat.
Import ListNotations.

Set Warnings "-register-all".

Local Open Scope string_scope.
Local Open Scope Z_scope.

(* ===================================================================== *)
(** ** JavaScript values and built-ins *)
(* ===================================================================== *)

Module Js.

(** A JavaScript number.  Finite doubles are represented by the exact
    rational they denote, kept in lowest terms; rounding is not modelled,
    so results about sums and differences are about exact arithmetic
    (they hold for doubles as long as the integers involved stay within
    the safe range below).  There is a single zero. *)
Inductive number : Type :=
| NaN
| Infinity (negative : bool)
| Finite (q : Q).

Definition int (z : Z) : number := Finite (inject_Z z).



(** Values that reach the services: what [JSON.parse] produces for a
    request body, plus [undefined] for an absent property. *)
Inductive value : Type :=
| VUndefined
| VNull
| VBool (b : bool)
| VNum (n : number)
| VStr (s : string)
| VArr (items : list value)
| VObj (props : list (string * value)).

(** What a JavaScript function call produces. *)
Inductive Exn : Type :=
| TypeError                      (* property read on null / undefined, iteration of a non-iterable *)
| Error (message : string)       (* throw new Error(message) *)
| DatabaseError (code : string). (* error raised by the storage driver, with its SQLSTATE *)

Inductive Outcome (A : Type) : Type :=
| Ok (a : A)
| Throw (e : Exn).
Arguments Ok {A} a.
Arguments Throw {A} e.

(** *** Numbers *)

Definition isNaN (n : number) : bool :=
  match n with NaN => true | _ => false end.

(** [n <= 0] and [n < 0]; every comparison with NaN is false. *)
Definition leZero (n : number) : bool :=
  match n with
  | NaN => false
  | Infinity negative => negative
  | Finite q => Qle_bool q 0
  end.

Definition ltZero (n : number) : bool :=
  match n with
  | NaN => false
  | Infinity negative => negative
  | Finite q => negb (Qle_bool 0 q)
  end.

Definition gtZero (n : number) : bool :=
  match n with
  | NaN => false
  | Infinity negative => negb negative
  | Finite q => negb (Qle_bool q 0)
  end.

Definition isZero (n : number) : bool :=
  match n with
  | Finite q => Qeq_bool q 0
  | _ => false
  end.

(** [a + b] *)
Definition add (a b : number) : number :=
  match a, b with
  | NaN, _ | _, NaN => NaN
  | Infinity s, Infinity t => if Bool.eqb s t then Infinity s else NaN
  | Infinity s, Finite _ | Finite _, Infinity s => Infinity s
  | Finite p, Finite q => Finite (Qred (p + q))
  end.

(** [a - b] *)
Definition sub (a b : number) : number :=
  match a, b with
  | NaN, _ | _, NaN => NaN
  | Infinity s, Infinity t => if Bool.eqb s t then NaN else Infinity s
  | Infinity s, Finite _ => Infinity s
  | Finite _, Infinity s => Infinity (negb s)
  | Finite p, Finite q => Finite (Qred (p - q))
  end.

(** *** Truthiness, [||] and [??] *)

(** ToBoolean: the falsy values are undefined, null, false, 0, NaN and
    the empty string. *)
Definition truthy (v : value) : bool :=
  match v with
  | VUndefined | VNull => false
  | VBool b => b
  | VNum NaN => false
  | VNum n => negb (isZero n)
  | VStr s => negb (String.eqb s "")
  | VArr _ | VObj _ => true
  end.

(** [a || b] *)
Definition or (a b : value) : value := if truthy a then a else b.

(** [a ?? b] *)
Definition nullish (a b : value) : value :=
  match a with
  | VUndefined | VNull => b
  | _ => a
  end.

(** *** Property access *)

Fixpoint lookup (key : string) (props : list (string * value)) : value :=
  match props with
  | [] => VUndefined
  | (k, v) :: rest => if String.eqb k key then v else lookup key rest
  end.

(** [v.key] for a key that no prototype defines ([quantity], [size], and
    the product fields): a TypeError on null and undefined, the own
    property of an object, undefined on every other value. *)
Definition getProp (v : value) (key : string) : Outcome value :=
  match v with
  | VUndefined | VNull => Throw TypeError
  | VObj props => Ok (lookup key props)
  | _ => Ok VUndefined
  end.

(** *** Reading numbers out of strings *)

(** WhiteSpace and LineTerminator code units below 256. *)
Definition isWhite (c : ascii) : bool :=
  let n := nat_of_ascii c in
  ((9 <=? n) && (n <=? 13) || (n =? 32) || (n =? 160))%nat.

Fixpoint trimStart (s : string) : string :=
  match s with
  | String c rest => if isWhite c then trimStart rest else s
  | EmptyString => s
  end.

(** The value of a digit in the given radix (2, 8, 10 or 16). *)
Definition digitValue (radix : Z) (c : ascii) : option Z :=
  let n := Z.of_nat (nat_of_ascii c) in
  let d :=
    if (48 <=? n) && (n <=? 57) then n - 48
    else if (97 <=? n) && (n <=? 102) then n - 87
    else if (65 <=? n) && (n <=? 70) then n - 55
    else radix in
  if d <? radix then Some d else None.

(** Longest prefix of digits: its value continuing from [acc], how many
    digits were read, and the rest of the string. *)
Fixpoint digits (radix : Z) (s : string) (acc : Z) (count : nat) : Z * nat * string :=
  match s with
  | String c rest =>
      match digitValue radix c with
      | Some d => digits radix rest (acc * radix + d) (S count)
      | None => (acc, count, s)
      end
  | EmptyString => (acc, count, s)
  end.

Definition signOf (s : string) : bool * string :=
  match s with
  | String "-" rest => (true, rest)
  | String "+" rest => (false, rest)
  | _ => (false, s)
  end.

Definition negateIf (negative : bool) (z : Z) : Z :=
  if negative then - z else z.

(** [parseInt(s)] with no radix argument. *)
Definition parseIntString (s : string) : number :=
  let (negative, s1) := signOf (trimStart s) in
  let (radix, s2) :=
    match s1 with
    | String "0" (String "x" rest) | String "0" (String "X" rest) => (16, rest)
    | _ => (10, s1)
    end in
  match digits radix s2 0 0 with
  | (_, O, _) => NaN
  | (z, _, _) => int (negateIf negative z)
  end.

(** m * 10^e as a number in lowest terms. *)
Definition scale10 (m e : Z) : number :=
  if 0 <=? e then int (m * 10 ^ e)
  else Finite (Qred (Qmake m (Z.to_pos (10 ^ (- e))))).

(** An ExponentPart at the head of [s], if there is a complete one. *)
Definition exponentPart (s : string) : Z * string :=
  match s with
  | String c rest =>
      if (Ascii.eqb c "e" || Ascii.eqb c "E")%bool then
        let (negative, s1) := signOf rest in
        match digits 10 s1 0 0 with
        | (_, O, _) => (0, s)
        | (e, _, r) => (negateIf negative e, r)
        end
      else (0, s)
  | EmptyString => (0, s)
  end.

Fixpoint drop (n : nat) (s : string) : string :=
  match n, s with
  | S n', String _ rest => drop n' rest
  | _, _ => s
  end.

(** The longest StrDecimalLiteral at the head of [s] and what follows
    it. *)
Definition decimalLiteral (s : string) : option (number * string) :=
  let (negative, s1) := signOf s in
  if String.prefix "Infinity" s1 then Some (Infinity negative, drop 8 s1)
  else
    let '(ip, n1, r1) := digits 10 s1 0 0 in
    let '(m, n2, r2) :=
      match r1 with
      | String "." rest => digits 10 rest ip 0
      | _ => (ip, O, r1)
      end in
    match n1, n2 with
    | O, O => None
    | _, _ =>
        let (e, r3) := exponentPart r2 in
        Some (scale10 (negateIf negative m) (e - Z.of_nat n2), r3)
    end.

(** [parseFloat(s)] *)
Definition parseFloatString (s : string) : number :=
  match decimalLiteral (trimStart s) with
  | Some (n, _) => n
  | None => NaN
  end.

(** A NonDecimalIntegerLiteral: 0x, 0o or 0b followed by digits. *)
Definition nonDecimalLiteral (s : string) : option (number * string) :=
  let radix :=
    match s with
    | String "0" (String c _) =>
        if (Ascii.eqb c "x" || Ascii.eqb c "X")%bool then 16
        else if (Ascii.eqb c "o" || Ascii.eqb c "O")%bool then 8
        else if (Ascii.eqb c "b" || Ascii.eqb c "B")%bool then 2
        else 0
    | _ => 0
    end in
  if radix =? 0 then None
  else
    match digits radix (drop 2 s) 0 0 with
    | (_, O, _) => None
    | (z, _, r) => Some (int z, r)
    end.

(** StringToNumber: the whole string, white space apart, must be a
    numeric literal; the empty string is 0. *)
Definition stringToNumber (s : string) : number :=
  let t := trimStart s in
  let whole (r : option (number * string)) : option number :=
    match r with
    | Some (n, rest) => if String.eqb (trimStart rest) "" then Some n else None
    | None => None
    end in
  if String.eqb t "" then int 0
  else
    match whole (nonDecimalLiteral t) with
    | Some n => n
    | None =>
        match whole (decimalLiteral t) with
        | Some n => n
        | None => NaN
        end
    end.

(** *** [parseInt] and [parseFloat] on arbitrary values

    Both built-ins first convert their argument with ToString.  The
    strings "undefined", "null", "true", "false" and "[object Object]"
    start no numeric literal.  An array converts to its elements joined
    by commas, null and undefined elements giving the empty string, so the
    literal read from it is the one read from its first element. *)

(** Leading decimal digit of a positive integer. *)
Definition leadingDigitPos (p : positive) : Z :=
  match Pos.to_uint p with
  | Decimal.D1 _ => 1 | Decimal.D2 _ => 2 | Decimal.D3 _ => 3
  | Decimal.D4 _ => 4 | Decimal.D5 _ => 5 | Decimal.D6 _ => 6
  | Decimal.D7 _ => 7 | Decimal.D8 _ => 8 | Decimal.D9 _ => 9
  | _ => 0
  end.

(** First significant digit of num/den when 0 < num < den. *)
Fixpoint leadingDigitFraction (fuel : nat) (num den : Z) : Z :=
  match fuel with
  | O => 0
  | S fuel' =>
      if den <=? num * 10 then (num * 10) / den
      else leadingDigitFraction fuel' (num * 10) den
  end.

(** [parseInt(n)] for a number [n].  ToString writes a finite number in
    plain decimal notation when it is zero or 1e-6 <= |n| < 1e21, and
    parseInt then keeps the integer part; outside that range ToString
    uses exponent notation (d.ddde+21, d.ddde-7) and parseInt stops after
    the first digit. *)
Definition parseIntNumber (n : number) : number :=
  match n with
  | NaN | Infinity _ => NaN
  | Finite q =>
      let a := Z.abs (Qnum q) in
      let d := Zpos (Qden q) in
      let negative := Qnum q <? 0 in
      if a =? 0 then int 0
      else if 10 ^ 21 * d <=? a then
        int (negateIf negative (leadingDigitPos (Z.to_pos (a / d))))
      else if a * 10 ^ 6 <? d then
        int (negateIf negative (leadingDigitFraction (S (Pos.to_nat (Pos.size (Qden q)))) a d))
      else int (negateIf negative (a / d))
  end.

Fixpoint parseInt (v : value) : number :=
  match v with
  | VNum n => parseIntNumber n
  | VStr s => parseIntString s
  | VArr (VUndefined :: _) | VArr (VNull :: _) => NaN
  | VArr (x :: _) => parseInt x
  | _ => NaN
  end.

Fixpoint parseFloat (v : value) : number :=
  match v with
  | VNum n => n
  | VStr s => parseFloatString s
  | VArr (VUndefined :: _) | VArr (VNull :: _) => NaN
  | VArr (x :: _) => parseFloat x
  | _ => NaN
  end.

(** Number(String(v)): how an element of a one-element array counts
    when the array is converted to a number. *)
Fixpoint toNumberViaString (v : value) : number :=
  match v with
  | VNum n => n
  | VStr s => stringToNumber s
  | VArr [] | VArr [VUndefined] | VArr [VNull] => int 0
  | VArr [x] => toNumberViaString x
  | _ => NaN
  end.

(** ToNumber *)
Definition toNumber (v : value) : number :=
  match v with
  | VUndefined => NaN
  | VNull => int 0
  | VBool b => int (if b then 1 else 0)
  | VArr _ => toNumberViaString v
  | VObj _ => NaN
  | _ => toNumberViaString v
  end.

Definition isArray (v : value) : bool :=
  match v with VArr _ => true | _ => false end.

(** [v.length]; only read on values that passed a truthiness test. *)
Definition lengthOf (v : value) : value :=
  match v with
  | VArr items => VNum (int (Z.of_nat (List.length items)))
  | VStr s => VNum (int (Z.of_nat (String.length s)))
  | VObj props => lookup "length" props
  | _ => VUndefined
  end.

(** What [for (const x of v)] visits: the elements of an array, the
    characters of a string; any other value is not iterable. *)
Definition iterate (v : value) : Outcome (list value) :=
  match v with
  | VArr items => Ok items
  | VStr s => Ok (map (fun c => VStr (String c EmptyString)) (list_ascii_of_string s))
  | _ => Throw TypeError
  end.

End Js.

(* ===================================================================== *)
(** ** The relational store behind [query] *)
(* ===================================================================== *)

Module Store.
Import Js.

(** Modelled from the spec: the module [./db] exporting [query], and the
    schema it talks to, are not among the sources.  The spec describes the
    storage capability as [execute(statement, parameters) -> rows] over
    the entities Product, SizeVariant, CashRegister and CashMovement,
    with integer stock and quantity.  The store is one list of rows per
    table, in insertion order; each SQL statement of the sources is one
    function below.  Columns the code only passes through hold the bound
    JavaScript value; columns the statements compute with are typed.  No
    uniqueness, foreign-key or check constraint is enforced here. *)

Record ProductRow : Type := {
  p_id : string;
  p_name : value;
  p_sku : value;
  p_cost : value;
  p_price : value;
  p_stock : Z;
  p_category : value;
  p_product_type : value;
  p_barcode : value;
  p_min_stock : value;
  p_has_sizes : bool;
  p_size_type : value
}.

Record SizeRow : Type := {
  ps_product_id : string;
  ps_size : string;
  ps_quantity : Z
}.

Inductive RegisterStatus : Type := abierta | cerrada.

Record RegisterRow : Type := {
  r_id : string;
  r_user_id : string;
  r_opening_balance : value;
  r_closing_balance : value;
  r_expected_balance : value;
  r_difference : value;
  r_status : RegisterStatus;
  r_opened_at : nat;
  r_closed_at : option nat;
  r_closed_by_user_id : option string
}.

Inductive MovementType : Type := entrada | salida.

Record MovementRow : Type := {
  m_id : string;
  m_register_id : string;
  m_user_id : string;
  m_type : MovementType;
  m_amount : value;
  m_concept : string;
  m_date : nat
}.

Record UserRow : Type := {
  u_id : string;
  u_name : value
}.

(** The data-modifying statements of the sources, as recorded in the
    journal of the store when they are executed. *)
Inductive Statement : Type :=
| InsertProduct (id : string)
| UpdateProduct (id : string)
| DeleteSizes (product_id : string)
| InsertSize (product_id size : string)
| AddStock (id : string)
| AddQuantity (product_id size : string)
| SetStock (id : string)
| InsertRegister (id : string)
| CloseRegister (id : string)
| InsertMovement (id : string).

(** The store, together with the two ambient services the code calls:
    the clock behind [NOW()] and the generator behind
    [crypto.randomUUID()]. *)
Record World : Type := {
  products : list ProductRow;
  product_sizes : list SizeRow;
  cash_registers : list RegisterRow;
  cash_movements : list MovementRow;
  users : list UserRow;
  journal : list Statement;   (* most recent first *)
  clock : nat;
  uuids : nat
}.

Definition emptyWorld : World :=
  {| products := []; product_sizes := []; cash_registers := [];
     cash_movements := []; users := []; journal := []; clock := O; uuids := O |}.

(** *** The monad of the [async] methods: state and exceptions *)

Definition M (A : Type) : Type := World -> Outcome A * World.

Definition ret {A} (a : A) : M A := fun w => (Ok a, w).

Definition throw {A} (e : Exn) : M A := fun w => (Throw e, w).

Definition bind {A B} (c : M A) (k : A -> M B) : M B :=
  fun w =>
    match c w with
    | (Ok a, w') => k a w'
    | (Throw e, w') => (Throw e, w')
    end.

(** try { c } catch (err) { handler err } *)
Definition catch {A} (c : M A) (handler : Exn -> M A) : M A :=
  fun w =>
    match c w with
    | (Ok a, w') => (Ok a, w')
    | (Throw e, w') => handler e w'
    end.

(** A synchronous call that may throw. *)
Definition lift {A} (o : Outcome A) : M A := fun w => (o, w).

Declare Scope monad_scope.
Delimit Scope monad_scope with monad.
Notation "x <- c ;; k" := (bind c (fun x => k))
  (at level 61, c at next level, right associativity) : monad_scope.
Notation "c ;; k" := (bind c (fun _ => k))
  (at level 61, right associativity) : monad_scope.
Local Open Scope monad_scope.

(** for (const x of items) { await body x } *)
Fixpoint forEach {A} (items : list A) (body : A -> M unit) : M unit :=
  match items with
  | [] => ret tt
  | x :: rest => body x ;; forEach rest body
  end.

(** [crypto.randomUUID()]: the n-th identifier handed out is the decimal
    numeral of n behind a fixed prefix, so that two calls never return
    the same string. *)
Definition uuidOf (n : nat) : string :=
  "uuid-" ++ NilEmpty.string_of_uint (Nat.to_uint n).

Definition randomUUID : M string :=
  fun w =>
    (Ok (uuidOf (uuids w)),
     {| products := products w; product_sizes := product_sizes w;
        cash_registers := cash_registers w; cash_movements := cash_movements w;
        users := users w; journal := journal w; clock := clock w;
        uuids := S (uuids w) |}).

(** *** Writing the tables *)

Definition setInventory (ps : list ProductRow) (ss : list SizeRow) (entry : Statement)
    (w : World) : World :=
  {| products := ps; product_sizes := ss;
     cash_registers := cash_registers w; cash_movements := cash_movements w;
     users := users w; journal := entry :: journal w; clock := clock w;
     uuids := uuids w |}.

(** A statement that calls [NOW()] reads the clock, which then moves on. *)
Definition setCash (rs : list RegisterRow) (ms : list MovementRow) (entry : Statement)
    (w : World) : World :=
  {| products := products w; product_sizes := product_sizes w;
     cash_registers := rs; cash_movements := ms;
     users := users w; journal := entry :: journal w; clock := S (clock w);
     uuids := uuids w |}.

(** *** Binding parameters to typed columns

    Modelled from the spec: stock and quantity are integers, a size label
    is a string, size-tracked is a flag.  A parameter of another shape
    makes the statement fail with SQLSTATE 22P02 (23502 for a null) and
    nothing is written.  (PostgreSQL itself also accepts, for instance,
    the string '7' for an integer; such parameters are rejected here.) *)

Definition bindingError {A} (v : value) : Outcome A :=
  match v with
  | VUndefined | VNull => Throw (DatabaseError "23502")
  | _ => Throw (DatabaseError "22P02")
  end.

Definition sqlInteger (v : value) : Outcome Z :=
  match v with
  | VNum (Finite q) =>
      if (Qnum q mod Zpos (Qden q) =? 0) then Ok (Qnum q / Zpos (Qden q))
      else bindingError v
  | _ => bindingError v
  end.

Definition sqlText (v : value) : Outcome string :=
  match v with
  | VStr s => Ok s
  | _ => bindingError v
  end.

Definition sqlBoolean (v : value) : Outcome bool :=
  match v with
  | VBool b => Ok b
  | _ => bindingError v
  end.

(** *** ORDER BY *)

Fixpoint insertBy {A} (le : A -> A -> bool) (x : A) (l : list A) : list A :=
  match l with
  | [] => [x]
  | y :: rest => if le x y then x :: l else y :: insertBy le x rest
  end.

Fixpoint sortBy {A} (le : A -> A -> bool) (l : list A) : list A :=
  match l with
  | [] => []
  | x :: rest => insertBy le x (sortBy le rest)
  end.

(** Descending order on a nullable timestamp; NULL sorts first. *)
Definition laterOrEqual (a b : option nat) : bool :=
  match a, b with
  | None, _ => true
  | Some _, None => false
  | Some x, Some y => (y <=? x)%nat
  end.

(** *** Statements of inventory.service.ts *)

(** SELECT * FROM products WHERE id = $1 *)
Definition selectProduct (id : string) : M (list ProductRow) :=
  fun w => (Ok (filter (fun r => String.eqb (p_id r) id) (products w)), w).

Definition sizesOf (product_id : string) (w : World) : list SizeRow :=
  filter (fun r => String.eqb (ps_product_id r) product_id) (product_sizes w).

(** SELECT size, quantity FROM product_sizes WHERE product_id = $1 ORDER BY size *)
Definition selectSizes (product_id : string) : M (list SizeRow) :=
  fun w => (Ok (sortBy (fun a b => String.leb (ps_size a) (ps_size b))
                       (sizesOf product_id w)), w).

(** INSERT INTO products (id, name, sku, cost, price, stock, category,
    product_type, barcode, min_stock, has_sizes, size_type) VALUES (...) *)
Definition insertProduct (id : string)
    (name sku cost price stock category product_type barcode min_stock
       has_sizes size_type : value) : M unit :=
  n <- lift (sqlInteger stock) ;;
  b <- lift (sqlBoolean has_sizes) ;;
  fun w =>
    (Ok tt,
     setInventory
       (products w ++
          [{| p_id := id; p_name := name; p_sku := sku; p_cost := cost;
              p_price := price; p_stock := n; p_category := category;
              p_product_type := product_type; p_barcode := barcode;
              p_min_stock := min_stock; p_has_sizes := b;
              p_size_type := size_type |}])
       (product_sizes w) (InsertProduct id) w).

(** UPDATE products SET name = $1, sku = $2, cost = $3, price = $4,
    stock = $5, category = $6, product_type = $7, barcode = $8,
    min_stock = $9, has_sizes = $10, size_type = $11 WHERE id = $12 *)
Definition updateProductRow
    (name sku cost price stock category product_type barcode min_stock
       has_sizes size_type : value) (id : string) : M unit :=
  n <- lift (sqlInteger stock) ;;
  b <- lift (sqlBoolean has_sizes) ;;
  fun w =>
    (Ok tt,
     setInventory
       (map (fun r =>
               if String.eqb (p_id r) id then
                 {| p_id := p_id r; p_name := name; p_sku := sku; p_cost := cost;
                    p_price := price; p_stock := n; p_category := category;
                    p_product_type := product_type; p_barcode := barcode;
                    p_min_stock := min_stock; p_has_sizes := b;
                    p_size_type := size_type |}
               else r)
            (products w))
       (product_sizes w) (UpdateProduct id) w).

(** DELETE FROM product_sizes WHERE product_id = $1 *)
Definition deleteSizes (product_id : string) : M unit :=
  fun w =>
    (Ok tt,
     setInventory (products w)
       (filter (fun r => negb (String.eqb (ps_product_id r) product_id)) (product_sizes w))
       (DeleteSizes product_id) w).

(** INSERT INTO product_sizes (product_id, size, quantity) VALUES ($1, $2, $3) *)
Definition insertSize (product_id : string) (size quantity : value) : M unit :=
  s <- lift (sqlText size) ;;
  q <- lift (sqlInteger quantity) ;;
  fun w =>
    (Ok tt,
     setInventory (products w)
       (product_sizes w ++
          [{| ps_product_id := product_id; ps_size := s; ps_quantity := q |}])
       (InsertSize product_id s) w).

Definition withStock (r : ProductRow) (n : Z) : ProductRow :=
  {| p_id := p_id r; p_name := p_name r; p_sku := p_sku r; p_cost := p_cost r;
     p_price := p_price r; p_stock := n; p_category := p_category r;
     p_product_type := p_product_type r; p_barcode := p_barcode r;
     p_min_stock := p_min_stock r; p_has_sizes := p_has_sizes r;
     p_size_type := p_size_type r |}.

(** UPDATE products SET stock = stock + $1 WHERE id = $2 AND has_sizes = false *)
Definition addStockWithoutSizes (quantity : value) (id : string) : M unit :=
  d <- lift (sqlInteger quantity) ;;
  fun w =>
    (Ok tt,
     setInventory
       (map (fun r =>
               if String.eqb (p_id r) id && Bool.eqb (p_has_sizes r) false
               then withStock r (p_stock r + d) else r)
            (products w))
       (product_sizes w) (AddStock id) w).

(** UPDATE product_sizes SET quantity = quantity + $1
    WHERE product_id = $2 AND size = $3 *)
Definition addQuantity (quantity : value) (product_id : string) (size : value) : M unit :=
  d <- lift (sqlInteger quantity) ;;
  s <- lift (sqlText size) ;;
  fun w =>
    (Ok tt,
     setInventory (products w)
       (map (fun r =>
               if String.eqb (ps_product_id r) product_id && String.eqb (ps_size r) s
               then {| ps_product_id := ps_product_id r; ps_size := ps_size r;
                       ps_quantity := ps_quantity r + d |}
               else r)
            (product_sizes w))
       (AddQuantity product_id s) w).

Definition sumQuantities (rows : list SizeRow) : Z :=
  fold_right (fun r acc => ps_quantity r + acc) 0 rows.

(** SUM(quantity) over the selected rows: NULL when there is none. *)
Definition sumOrNull (rows : list SizeRow) : value :=
  match rows with
  | [] => VNull
  | _ :: _ => VNum (int (sumQuantities rows))
  end.

(** SELECT SUM(quantity) as total FROM product_sizes WHERE product_id = $1:
    one row, holding [total]. *)
Definition selectTotal (product_id : string) : M value :=
  fun w => (Ok (sumOrNull (sizesOf product_id w)), w).

(** UPDATE products SET stock = $1 WHERE id = $2 *)
Definition setStock (stock : value) (id : string) : M unit :=
  n <- lift (sqlInteger stock) ;;
  fun w =>
    (Ok tt,
     setInventory
       (map (fun r => if String.eqb (p_id r) id then withStock r n else r) (products w))
       (product_sizes w) (SetStock id) w).

End Store.

(* ===================================================================== *)
(** ** inventory.service.ts *)
(* ===================================================================== *)

Module Inventory.
Import Js Store.
Local Open Scope monad_scope.

(** interface ValidationResult *)
Record ValidationResult : Type := {
  isValid : bool;
  error : option string
}.

Definition missingFields : string :=
  "Campos obligatorios faltantes (name, sku, price, category, productType)".
Definition invalidProductType : string := "productType inválido".
Definition invalidPrice : string := "Precio inválido".
Definition invalidCost : string := "Costo inválido".

Definition reject (reason : string) : ValidationResult :=
  {| isValid := false; error := Some reason |}.

Definition accept : ValidationResult :=
  {| isValid := true; error := None |}.

Definition isUndefinedOrNull (v : value) : bool :=
  match v with VUndefined | VNull => true | _ => false end.

Definition isEmptyString (v : value) : bool :=
  match v with VStr s => String.eqb s "" | _ => false end.

(** ['ropa', 'otros'].includes(v) *)
Definition isProductType (v : value) : bool :=
  match v with
  | VStr s => String.eqb s "ropa" || String.eqb s "otros"
  | _ => false
  end.

(** validateProductData(data) *)
Definition validateProductData (data : value) : Outcome ValidationResult :=
  match getProp data "name", getProp data "sku", getProp data "price",
        getProp data "category", getProp data "productType", getProp data "cost" with
  | Ok name, Ok sku, Ok price, Ok category, Ok productType, Ok cost =>
      if negb (truthy name) || negb (truthy sku) || isUndefinedOrNull price
         || negb (truthy category) || negb (truthy productType)
      then Ok (reject missingFields)
      else if negb (isProductType productType)
      then Ok (reject invalidProductType)
      else
        let parsedPrice := parseFloat price in
        if isNaN parsedPrice || leZero parsedPrice
        then Ok (reject invalidPrice)
        else if negb (isUndefinedOrNull cost) && negb (isEmptyString cost)
                && (let parsedCost := parseFloat cost in
                    isNaN parsedCost || ltZero parsedCost)
        then Ok (reject invalidCost)
        else Ok accept
  | _, _, _, _, _, _ => Throw TypeError
  end.

(** [parseInt(x) || 0] *)
Definition parseIntOrZero (x : value) : number :=
  let n := parseInt x in
  if truthy (VNum n) then n else int 0.

(** The callback of [reduce] in calculateTotalStock:
    (sum, size) => { const quantity = parseInt(size.quantity) || 0;
                     return sum + quantity; } *)
Definition addQuantityOf (sum : number) (size : value) : Outcome number :=
  match getProp size "quantity" with
  | Ok q => Ok (add sum (parseIntOrZero q))
  | Throw e => Throw e
  end.

(** items.reduce(callback, init) for a callback that may throw. *)
Fixpoint reduce (callback : number -> value -> Outcome number)
    (items : list value) (acc : number) : Outcome number :=
  match items with
  | [] => Ok acc
  | x :: rest =>
      match callback acc x with
      | Ok acc' => reduce callback rest acc'
      | Throw e => Throw e
      end
  end.

(** [v === 0] *)
Definition isNumberZero (v : value) : bool :=
  match v with VNum n => isZero n | _ => false end.

(** calculateTotalStock(hasSizes, sizes, baseStock) *)
Definition calculateTotalStock (hasSizes sizes baseStock : value) : Outcome value :=
  if negb (truthy hasSizes) || negb (truthy sizes) || negb (isArray sizes)
     || isNumberZero (lengthOf sizes)
  then Ok (or baseStock (VNum (int 0)))
  else
    match sizes with
    | VArr items =>
        match reduce addQuantityOf items (int 0) with
        | Ok total => Ok (VNum total)
        | Throw e => Throw e
        end
    | _ => Throw TypeError   (* not reached: [sizes] is an array here *)
    end.

(** parseCost(cost) *)
Definition parseCost (cost : value) : value :=
  if isUndefinedOrNull cost || isEmptyString cost then VNull
  else
    let parsed := parseFloat cost in
    if isNaN parsed then VNull else VNum parsed.

(** interface Product, as mapProductFromDB fills it. *)
Record Product : Type := {
  id : string;
  name : value;
  sku : value;
  cost : option number;
  price : number;
  stock : Z;
  category : value;
  productType : value;
  barcode : value;
  minStock : option number;
  hasSizes : bool;
  sizeType : value;
  sizes : option (list SizeRow)
}.

(** mapProductFromDB(product, sizes) *)
Definition mapProductFromDB (product : ProductRow) (sizes : option (list SizeRow)) : Product :=
  {| id := p_id product;
     name := p_name product;
     sku := p_sku product;
     cost := if truthy (p_cost product) then Some (parseFloat (p_cost product)) else None;
     price := parseFloat (p_price product);
     stock := p_stock product;
     category := p_category product;
     productType := p_product_type product;
     barcode := or (p_barcode product) VUndefined;
     minStock := if isUndefinedOrNull (p_min_stock product) then None
                 else Some (parseFloat (p_min_stock product));
     hasSizes := p_has_sizes product;
     sizeType := or (p_size_type product) VUndefined;
     sizes := sizes |}.

(** getProductWithSizes(productId) *)
Definition getProductWithSizes (productId : string) : M (option Product) :=
  rows <- selectProduct productId ;;
  match rows with
  | [] => ret None
  | product :: _ =>
      sizes <- (if p_has_sizes product
                then (found <- selectSizes (p_id product) ;; ret (Some found))
                else ret None) ;;
      ret (Some (mapProductFromDB product sizes))
  end.

(** The [productData] argument of createProduct and updateProduct.  The
    declared field types are not enforced at run time: the controller
    fills the fields from the request body. *)
Record ProductData : Type := {
  d_name : value;
  d_sku : value;
  d_cost : value;
  d_price : value;
  d_stock : value;
  d_category : value;
  d_productType : value;
  d_barcode : value;
  d_minStock : value;
  d_hasSizes : value;
  d_sizeType : value;
  d_sizes : value
}.

(** insertSizeVariants(productId, sizes).  [parseInt] converts its
    argument with ToString itself, so parseInt(String(x)) is parseInt(x). *)
Definition insertSizeVariants (productId : string) (sizes : value) : M unit :=
  items <- lift (iterate sizes) ;;
  forEach items (fun size =>
    label <- lift (getProp size "size") ;;
    q <- lift (getProp size "quantity") ;;
    insertSize productId label (VNum (parseIntOrZero q))).

(** productData.hasSizes && productData.sizes && productData.sizes.length > 0 *)
Definition hasVariants (data : ProductData) : bool :=
  truthy (d_hasSizes data) && truthy (d_sizes data)
  && gtZero (toNumber (lengthOf (d_sizes data))).

(** createProduct(productData) *)
Definition createProduct (data : ProductData) : M string :=
  productId <- randomUUID ;;
  totalStock <- lift (calculateTotalStock (d_hasSizes data) (d_sizes data) (d_stock data)) ;;
  insertProduct productId
    (d_name data) (d_sku data) (d_cost data) (d_price data) totalStock
    (d_category data) (d_productType data)
    (or (d_barcode data) VNull)
    (nullish (d_minStock data) (VNum (int 0)))
    (d_hasSizes data)
    (if truthy (d_hasSizes data) then or (d_sizeType data) VNull else VNull) ;;
  (if hasVariants data then insertSizeVariants productId (d_sizes data) else ret tt) ;;
  ret productId.

(** updateProduct(productId, productData) *)
Definition updateProduct (productId : string) (data : ProductData) : M unit :=
  totalStock <- lift (calculateTotalStock (d_hasSizes data) (d_sizes data) (d_stock data)) ;;
  updateProductRow
    (d_name data) (d_sku data) (d_cost data) (d_price data) totalStock
    (d_category data) (d_productType data)
    (or (d_barcode data) VNull)
    (nullish (d_minStock data) (VNum (int 0)))
    (d_hasSizes data)
    (or (d_sizeType data) VNull)
    productId ;;
  deleteSizes productId ;;
  (if hasVariants data then insertSizeVariants productId (d_sizes data) else ret tt).

(** updateStockSimple(productId, quantity) *)
Definition updateStockSimple (productId : string) (quantity : value) : M unit :=
  addStockWithoutSizes quantity productId.

(** updateStockBySize(productId, size, quantity) *)
Definition updateStockBySize (productId : string) (size quantity : value) : M unit :=
  addQuantity quantity productId size ;;
  total <- selectTotal productId ;;
  let totalStock := or total (VNum (int 0)) in
  setStock totalStock productId.

End Inventory.

(* ===================================================================== *)
(** ** inventory.controller.ts *)
(* ===================================================================== *)

Module InventoryController.
Import Js Store.
Local Open Scope monad_scope.

(** The parts of an Express request the handlers read. *)
Record Request : Type := {
  params_id : string;   (* req.params.id *)
  body : value          (* req.body *)
}.

(** What the handler sends: res.status(status).json({ message, id }). *)
Record Response : Type := {
  status : Z;
  message : option string;
  created : option string
}.

Definition respond (code : Z) (text : string) : Response :=
  {| status := code; message := Some text; created := None |}.

(** handleDatabaseError(err, res, defaultMessage) *)
Definition handleDatabaseError (err : Exn) (defaultMessage : string) : Response :=
  match err with
  | DatabaseError code =>
      if String.eqb code "23505" then
        respond 400 "El SKU o código de barras ya existe"
      else if String.eqb code "23502" then
        respond 400 "Violación de NOT NULL en la base de datos"
      else if String.eqb code "23514" then
        respond 400 "Violación de restricción CHECK (product_type o size_type)"
      else respond 500 defaultMessage
  | _ => respond 500 defaultMessage
  end.

(** const { name, sku, cost, price, stock, category, productType, barcode,
            minStock, hasSizes, sizeType, sizes } = req.body *)
Definition destructure (b : value) : Outcome Inventory.ProductData :=
  match b with
  | VUndefined | VNull => Throw TypeError
  | _ =>
      let field key := match getProp b key with Ok v => v | Throw _ => VUndefined end in
      Ok {| Inventory.d_name := field "name";
            Inventory.d_sku := field "sku";
            Inventory.d_cost := field "cost";
            Inventory.d_price := field "price";
            Inventory.d_stock := field "stock";
            Inventory.d_category := field "category";
            Inventory.d_productType := field "productType";
            Inventory.d_barcode := field "barcode";
            Inventory.d_minStock := field "minStock";
            Inventory.d_hasSizes := field "hasSizes";
            Inventory.d_sizeType := field "sizeType";
            Inventory.d_sizes := field "sizes" |}
  end.

(** POST: createProduct(req, res) *)
Definition createProduct (req : Request) : M Response :=
  raw <- lift (destructure (body req)) ;;
  validation <- lift (Inventory.validateProductData (body req)) ;;
  if negb (Inventory.isValid validation) then
    ret {| status := 400; message := Inventory.error validation; created := None |}
  else
    catch
      (let parsedCost := Inventory.parseCost (Inventory.d_cost raw) in
       let parsedPrice := parseFloat (Inventory.d_price raw) in
       productId <- Inventory.createProduct
         {| Inventory.d_name := Inventory.d_name raw;
            Inventory.d_sku := Inventory.d_sku raw;
            Inventory.d_cost := parsedCost;
            Inventory.d_price := VNum parsedPrice;
            Inventory.d_stock := or (Inventory.d_stock raw) (VNum (int 0));
            Inventory.d_category := Inventory.d_category raw;
            Inventory.d_productType := Inventory.d_productType raw;
            Inventory.d_barcode := Inventory.d_barcode raw;
            Inventory.d_minStock := Inventory.d_minStock raw;
            Inventory.d_hasSizes := VBool (truthy (Inventory.d_hasSizes raw));
            Inventory.d_sizeType := Inventory.d_sizeType raw;
            Inventory.d_sizes := Inventory.d_sizes raw |} ;;
       ret {| status := 201; message := Some "Producto creado exitosamente";
              created := Some productId |})
      (fun err => ret (handleDatabaseError err "Error al crear producto")).

(** PUT: updateProduct(req, res) *)
Definition updateProduct (req : Request) : M Response :=
  raw <- lift (destructure (body req)) ;;
  catch
    (let parsedCost := Inventory.parseCost (Inventory.d_cost raw) in
     Inventory.updateProduct (params_id req)
       {| Inventory.d_name := Inventory.d_name raw;
          Inventory.d_sku := Inventory.d_sku raw;
          Inventory.d_cost := parsedCost;
          Inventory.d_price := VNum (parseFloat (Inventory.d_price raw));
          Inventory.d_stock := or (Inventory.d_stock raw) (VNum (int 0));
          Inventory.d_category := Inventory.d_category raw;
          Inventory.d_productType := Inventory.d_productType raw;
          Inventory.d_barcode := Inventory.d_barcode raw;
          Inventory.d_minStock := Inventory.d_minStock raw;
          Inventory.d_hasSizes := or (Inventory.d_hasSizes raw) (VBool false);
          Inventory.d_sizeType := Inventory.d_sizeType raw;
          Inventory.d_sizes := Inventory.d_sizes raw |} ;;
     ret (respond 200 "Producto actualizado exitosamente"))
    (fun err => ret (handleDatabaseError err "Error al actualizar producto")).

(** What the read handlers send: res.status(status).json(...), the body
    being either { message } or the product itself. *)
Record ProductResponse : Type := {
  pr_status : Z;
  pr_message : option string;
  pr_product : option Inventory.Product
}.


Definition found (product : option Inventory.Product) : ProductResponse :=
  {| pr_status := 200; pr_message := None; pr_product := product |}.





(** PATCH: updateStock(req, res) *)
Definition updateStock (req : Request) : M Response :=
  quantity <- lift (getProp (body req) "quantity") ;;
  catch
    (Inventory.updateStockSimple (params_id req) quantity ;;
     ret (respond 200 "Stock actualizado exitosamente"))
    (fun _ => ret (respond 500 "Error al actualizar stock")).

(** PATCH: updateStockBySize(req, res) *)
Definition updateStockBySize (req : Request) : M Response :=
  size <- lift (getProp (body req) "size") ;;
  quantity <- lift (getProp (body req) "quantity") ;;
  catch
    (Inventory.updateStockBySize (params_id req) size quantity ;;
     ret (respond 200 "Stock actualizado exitosamente"))
    (fun _ => ret (respond 500 "Error al actualizar stock por talla")).

End InventoryController.

(* ===================================================================== *)
(** ** cash-register.service.ts *)
(* ===================================================================== *)

Module CashRegister.
Import Js Store.
Local Open Scope monad_scope.

Definition alreadyOpen : string := "Ya tienes una caja abierta".
Definition noOpenRegister : string := "No tienes una caja abierta".

Definition isOpen (r : RegisterRow) : bool :=
  match r_status r with abierta => true | cerrada => false end.

(** SELECT * FROM cash_registers WHERE user_id = $1 AND status = 'abierta' *)
Definition openRegistersOf (userId : string) (w : World) : list RegisterRow :=
  filter (fun r => String.eqb (r_user_id r) userId && isOpen r) (cash_registers w).

Definition selectOpen (userId : string) : M (list RegisterRow) :=
  fun w => (Ok (openRegistersOf userId w), w).

(** ... ORDER BY opened_at DESC LIMIT 1 *)
Definition selectLatestOpen (userId : string) : M (list RegisterRow) :=
  fun w =>
    (Ok (firstn 1 (sortBy (fun a b => (r_opened_at b <=? r_opened_at a)%nat)
                          (openRegistersOf userId w))), w).

(** INSERT INTO cash_registers (id, user_id, opening_balance, status, opened_at)
    VALUES ($1, $2, $3, 'abierta', NOW()) *)
Definition insertRegister (registerId userId : string) (openingBalance : number) : M unit :=
  fun w =>
    (Ok tt,
     setCash
       (cash_registers w ++
          [{| r_id := registerId; r_user_id := userId;
              r_opening_balance := VNum openingBalance;
              r_closing_balance := VNull; r_expected_balance := VNull;
              r_difference := VNull; r_status := abierta;
              r_opened_at := clock w; r_closed_at := None;
              r_closed_by_user_id := None |}])
       (cash_movements w) (InsertRegister registerId) w).

(** INSERT INTO cash_movements (id, register_id, user_id, type, amount, concept, date)
    VALUES ($1, $2, $3, $4, $5, $6, NOW()) *)
Definition insertMovement (movementId registerId userId : string)
    (type : MovementType) (amount : number) (concept : string) : M unit :=
  fun w =>
    (Ok tt,
     setCash (cash_registers w)
       (cash_movements w ++
          [{| m_id := movementId; m_register_id := registerId; m_user_id := userId;
              m_type := type; m_amount := VNum amount; m_concept := concept;
              m_date := clock w |}])
       (InsertMovement movementId) w).

Definition closed (r : RegisterRow) (closingBalance expectedBalance difference : number)
    (userId : string) (now : nat) : RegisterRow :=
  {| r_id := r_id r; r_user_id := r_user_id r;
     r_opening_balance := r_opening_balance r;
     r_closing_balance := VNum closingBalance;
     r_expected_balance := VNum expectedBalance;
     r_difference := VNum difference;
     r_status := cerrada;
     r_opened_at := r_opened_at r;
     r_closed_at := Some now;
     r_closed_by_user_id := Some userId |}.

(** UPDATE cash_registers SET status = 'cerrada', closed_at = NOW(),
    closing_balance = $1, expected_balance = $2, difference = $3,
    closed_by_user_id = $4 WHERE id = $5 *)
Definition closeRegisterRow (closingBalance expectedBalance difference : number)
    (userId registerId : string) : M unit :=
  fun w =>
    (Ok tt,
     setCash
       (map (fun r =>
               if String.eqb (r_id r) registerId
               then closed r closingBalance expectedBalance difference userId (clock w)
               else r)
            (cash_registers w))
       (cash_movements w) (CloseRegister registerId) w).

(** interface CashRegister *)
Record CashRegister : Type := {
  id : string;
  userId : string;
  openingBalance : number;
  closingBalance : option number;
  expectedBalance : option number;
  difference : option number;
  status : RegisterStatus;
  openedAt : nat;
  closedAt : option nat;
  openedByName : value;
  closedByName : value
}.

(** interface CashMovement *)
Record CashMovement : Type := {
  cm_id : string;
  registerId : string;
  cm_userId : string;
  type : MovementType;
  amount : number;
  concept : string;
  date : nat
}.

(** raw ? parseFloat(raw) : undefined *)
Definition parseIfTruthy (raw : value) : option number :=
  if truthy raw then Some (parseFloat raw) else None.

(** The object literal built from a row by getCurrentRegister (which
    sets no names) and getHistory. *)
Definition toCashRegister (row : RegisterRow) (openedBy closedBy : value) : CashRegister :=
  {| id := r_id row;
     userId := r_user_id row;
     openingBalance := parseFloat (r_opening_balance row);
     closingBalance := parseIfTruthy (r_closing_balance row);
     expectedBalance := parseIfTruthy (r_expected_balance row);
     difference := parseIfTruthy (r_difference row);
     status := r_status row;
     openedAt := r_opened_at row;
     closedAt := r_closed_at row;
     openedByName := openedBy;
     closedByName := closedBy |}.

(** getCurrentRegister(userId) *)
Definition getCurrentRegister (userId : string) : M (option CashRegister) :=
  rows <- selectLatestOpen userId ;;
  match rows with
  | [] => ret None
  | row :: _ => ret (Some (toCashRegister row VUndefined VUndefined))
  end.

(** openRegister(userId, openingBalance) *)
Definition openRegister (userId : string) (openingBalance : number) : M string :=
  existing <- selectOpen userId ;;
  match existing with
  | _ :: _ => throw (Error alreadyOpen)
  | [] =>
      registerId <- randomUUID ;;
      insertRegister registerId userId openingBalance ;;
      movementId <- randomUUID ;;
      insertMovement movementId registerId userId entrada openingBalance "Apertura de caja" ;;
      ret registerId
  end.

(** closeRegister(userId, closingBalance, expectedBalance) *)
Definition closeRegister (userId : string) (closingBalance expectedBalance : number) : M unit :=
  result <- selectOpen userId ;;
  match result with
  | [] => throw (Error noOpenRegister)
  | row :: _ =>
      let registerId := r_id row in
      let difference := sub closingBalance expectedBalance in
      closeRegisterRow closingBalance expectedBalance difference userId registerId
  end.

(** SELECT * FROM cash_movements WHERE register_id = $1 ORDER BY date DESC *)
Definition selectMovements (registerId : string) : M (list MovementRow) :=
  fun w =>
    (Ok (sortBy (fun a b => (m_date b <=? m_date a)%nat)
           (filter (fun m => String.eqb (m_register_id m) registerId) (cash_movements w))), w).

(** getMovements(userId) *)
Definition getMovements (userId : string) : M (list CashMovement) :=
  registerResult <- selectOpen userId ;;
  match registerResult with
  | [] => ret []
  | row :: _ =>
      movements <- selectMovements (r_id row) ;;
      ret (map (fun m =>
                  {| cm_id := m_id m; registerId := m_register_id m;
                     cm_userId := m_user_id m; type := m_type m;
                     amount := parseFloat (m_amount m); concept := m_concept m;
                     date := m_date m |}) movements)
  end.

(** addMovement(userId, type, amount, concept) *)
Definition addMovement (userId : string) (type : MovementType) (amount : number)
    (concept : string) : M string :=
  registerResult <- selectOpen userId ;;
  match registerResult with
  | [] => throw (Error noOpenRegister)
  | row :: _ =>
      let registerId := r_id row in
      movementId <- randomUUID ;;
      insertMovement movementId registerId userId type amount concept ;;
      ret movementId
  end.

(** The names a LEFT JOIN against [users] attaches to a key: one per
    matching user, a single NULL when there is none. *)
Definition namesOf (key : option string) (w : World) : list value :=
  match key with
  | None => [VNull]
  | Some k =>
      match filter (fun u => String.eqb (u_id u) k) (users w) with
      | [] => [VNull]
      | found => map u_name found
      end
  end.

(** SELECT cr.*, u_opened.name as opened_by_name, u_closed.name as closed_by_name
    FROM cash_registers cr
    LEFT JOIN users u_opened ON cr.user_id = u_opened.id
    LEFT JOIN users u_closed ON cr.closed_by_user_id = u_closed.id
    WHERE cr.status = 'cerrada' ORDER BY cr.closed_at DESC *)
Definition selectHistory : M (list (RegisterRow * value * value)) :=
  fun w =>
    (Ok (sortBy (fun a b => laterOrEqual (r_closed_at (fst (fst a))) (r_closed_at (fst (fst b))))
           (flat_map
              (fun r =>
                 flat_map (fun opened =>
                   map (fun closedBy => (r, opened, closedBy))
                       (namesOf (r_closed_by_user_id r) w))
                   (namesOf (Some (r_user_id r)) w))
              (filter (fun r => negb (isOpen r)) (cash_registers w)))), w).

(** getHistory() *)
Definition getHistory : M (list CashRegister) :=
  result <- selectHistory ;;
  ret (map (fun row => toCashRegister (fst (fst row)) (snd (fst row)) (snd row)) result).

(** isExactBalance(difference): Math.abs(difference) < 0.01 *)
Definition isExactBalance (difference : number) : bool :=
  match difference with
  | Finite q => negb (Qle_bool (1 # 100) (Qabs q))
  | _ => false
  end.

End CashRegister.

(* ===================================================================== *)
(** ** auth.middleware.ts *)
(* ===================================================================== *)

Module Auth.

(** interface JwtPayload *)
Record JwtPayload : Type := {
  id : string;
  email : string;
  role : string;
  name : string
}.

(** What a middleware does with the request: answer with a bare status,
    answer with a status and a message, or call next(), the request then
    carrying [req.user]. *)
Inductive Reply : Type :=
| SendStatus (code : Z)
| Json (code : Z) (message : string)
| Next (user : option JwtPayload).

(** process.env.JWT_SECRET || 'secret_key_change_me' *)
Definition JWT_SECRET (env : option string) : string :=
  match env with
  | Some secret => if String.eqb secret "" then "secret_key_change_me" else secret
  | None => "secret_key_change_me"
  end.

(** s.split(' ') *)
Fixpoint split (s : string) : list string :=
  match s with
  | EmptyString => [""]
  | String c rest =>
      if Ascii.eqb c " " then "" :: split rest
      else
        match split rest with
        | [] => [String c ""]
        | word :: words => String c word :: words
        end
  end.

(** authHeader && authHeader.split(' ')[1]: [None] stands for undefined. *)
Definition tokenOf (authHeader : option string) : option string :=
  match authHeader with
  | None => None
  | Some header =>
      if String.eqb header "" then Some ""
      else nth_error (split header) 1
  end.

Section Middleware.

(** [jwt.verify(token, secret, callback)] belongs to the jsonwebtoken
    package: it hands the callback either an error ([None]) or the decoded
    payload. *)
Variable verify : string -> string -> option JwtPayload.

(** The value of the environment variable JWT_SECRET when the module is
    loaded. *)
Variable env : option string.

(** authenticateToken(req, res, next), reading
    req.headers['authorization']. *)
Definition authenticateToken (authHeader : option string) : Reply :=
  match tokenOf authHeader with
  | None => SendStatus 401
  | Some token =>
      if String.eqb token "" then SendStatus 401
      else
        match verify token (JWT_SECRET env) with
        | None => SendStatus 403
        | Some decoded => Next (Some decoded)
        end
  end.

End Middleware.

(** requireRole(allowedRoles)(req, res, next), reading req.user. *)
Definition requireRole (allowedRoles : list string) (user : option JwtPayload) : Reply :=
  match user with
  | None => SendStatus 401
  | Some u =>
      if negb (existsb (String.eqb (role u)) allowedRoles)
      then Json 403 "Acceso denegado: permisos insuficientes"
      else Next user
  end.

(** A route guarded by authenticateToken followed by
    requireRole(allowedRoles): the second middleware runs only when the
    first one calls next(). *)
Definition guarded (verify : string -> string -> option JwtPayload)
    (env : option string) (allowedRoles : list string)
    (authHeader : option string) : Reply :=
  match authenticateToken verify env authHeader with
  | Next user => requireRole allowedRoles user
  | reply => reply
  end.

End Auth.

(* ===================================================================== *)
(** ** Vocabulary of the properties *)
(* ===================================================================== *)

Import Js Store.
Local Open Scope monad_scope.

(** *** Validation rules *)











(** *** Total stock *)







(** [parseInt] returns NaN or an integer. *)
Definition integral (n : number) : Prop := n = NaN \/ exists z, n = int z.

(** *** Stock and variants in the store *)

(** Sum of the quantities of the variant rows of a product. *)
Definition variantTotal (productId : string) (w : World) : Z :=
  sumQuantities (sizesOf productId w).




(** A variant as the client sends it: { size, quantity }. *)
Definition variant (label : string) (quantity : Z) : value :=
  VObj [("size", VStr label); ("quantity", VNum (int quantity))].

Definition variants (l : list (string * Z)) : value :=
  VArr (map (fun v => variant (fst v) (snd v)) l).


(** *** Sample data *)

(** A product as the controller hands it to the service, with the given
    fallback stock, size-tracked flag and variants. *)
Definition garment (fallback : Z) (sizeTracked : bool) (l : list (string * Z))
    : Inventory.ProductData :=
  {| Inventory.d_name := VStr "Blusa";
     Inventory.d_sku := VStr "B-1";
     Inventory.d_cost := VNull;
     Inventory.d_price := VNum (int 120);
     Inventory.d_stock := VNum (int fallback);
     Inventory.d_category := VStr "dama";
     Inventory.d_productType := VStr "ropa";
     Inventory.d_barcode := VUndefined;
     Inventory.d_minStock := VUndefined;
     Inventory.d_hasSizes := VBool sizeTracked;
     Inventory.d_sizeType := if sizeTracked then VStr "letter" else VUndefined;
     Inventory.d_sizes := variants l |}.

(** The store after one createProduct on the empty store. *)
Definition storeWith (data : Inventory.ProductData) : World :=
  snd (Inventory.createProduct data emptyWorld).

(** *** Cash-register sessions *)

(** A call on the cash-register service. *)
Inductive Call : Type :=
| CallOpen (userId : string) (openingBalance : number)
| CallClose (userId : string) (closingBalance expectedBalance : number)
| CallAddMovement (userId : string) (type : MovementType) (amount : number)
    (concept : string).

(** The store after a call, whether it returned or threw. *)
Definition after (c : Call) (w : World) : World :=
  match c with
  | CallOpen userId openingBalance =>
      snd (CashRegister.openRegister userId openingBalance w)
  | CallClose userId closingBalance expectedBalance =>
      snd (CashRegister.closeRegister userId closingBalance expectedBalance w)
  | CallAddMovement userId type amount concept =>
      snd (CashRegister.addMovement userId type amount concept w)
  end.

(** The store after a sequence of calls, first call first. *)
Definition afterAll (calls : list Call) (w : World) : World :=
  fold_left (fun w c => after c w) calls w.

(** What holds of the registers in every store reached from one without
    registers: at most one open register per user, and identifiers that
    are pairwise distinct and were all handed out by the generator. *)
Definition registersConsistent (w : World) : Prop :=
  (forall userId, (List.length (CashRegister.openRegistersOf userId w) <= 1)%nat)
  /\ NoDup (map r_id (cash_registers w))
  /\ (forall row, In row (cash_registers w) ->
        exists n, (n < uuids w)%nat /\ r_id row = uuidOf n).

(** The row openRegister inserts. *)
Definition opened (userId : string) (balance : number) (w : World) : RegisterRow :=
  {| r_id := uuidOf (uuids w); r_user_id := userId;
     r_opening_balance := VNum balance;
     r_closing_balance := VNull; r_expected_balance := VNull;
     r_difference := VNull; r_status := abierta;
     r_opened_at := clock w; r_closed_at := None;
     r_closed_by_user_id := None |}.



(** A user opens a register with 100.00 and takes 20.00 out. *)
Definition shift : list Call :=
  [CallOpen "u1" (int 100); CallAddMovement "u1" salida (int 20) "petty cash"].

(** A request whose body passes every validation rule but the one on
    the cost, addressed at the first product ever created. *)
Definition negativeCostRequest : InventoryController.Request :=
  {| InventoryController.params_id := "uuid-0";
     InventoryController.body :=
       VObj [("name", VStr "Blusa"); ("sku", VStr "B-1"); ("price", VNum (int 120));
             ("cost", VNum (int (-1))); ("category", VStr "dama");
             ("productType", VStr "ropa"); ("stock", VNum (int 7))] |}.

(** *** Further vocabulary *)

(** A variant row of the product that carries the label. *)
Definition labelled (productId label : string) (r : SizeRow) : bool :=
  String.eqb (ps_product_id r) productId && String.eqb (ps_size r) label.

(** The movement openRegister inserts after the register. *)
Definition openingMovement (userId : string) (balance : number) (w : World) : MovementRow :=
  {| m_id := uuidOf (S (uuids w)); m_register_id := uuidOf (uuids w);
     m_user_id := userId; m_type := entrada; m_amount := VNum balance;
     m_concept := "Apertura de caja"; m_date := S (clock w) |}.


(** No blank in the string. *)
Fixpoint blankFree (s : string) : bool :=
  match s with
  | EmptyString => true
  | String c rest => negb (Ascii.eqb c " ") && blankFree rest
  end.

(** A body that passes every validation rule. *)
Definition blouseFields : list (string * value) :=
  [("name", VStr "Blusa"); ("sku", VStr "B-1"); ("price", VStr "120.50");
   ("cost", VStr "80"); ("category", VStr "dama"); ("productType", VStr "ropa");
   ("stock", VNum (int 7)); ("barcode", VStr "750100")].

(** A decoded token, and a verifier that accepts the token "good" under
    the built-in secret only. *)
Definition cashier : Auth.JwtPayload :=
  {| Auth.id := "u1"; Auth.email := "caja@armonia.test"; Auth.role := "cajero";
     Auth.name := "Caja" |}.

Definition acceptGood (token secret : string) : option Auth.JwtPayload :=
  if String.eqb token "good" && String.eqb secret "secret_key_change_me"
  then Some cashier else None.

(* ===================================================================== *)
(** ** Facts about the built-ins *)
(* ===================================================================== *)

Lemma Qred_inject_Z (z : Z) : Qred (inject_Z z) = inject_Z z.
Proof.
  unfold Qred, inject_Z.
  pose proof (Z.ggcd_gcd z 1) as Hg.
  pose proof (Z.ggcd_correct_divisors z 1) as Hd.
  destruct (Z.ggcd z 1) as [g [aa bb]]; simpl in *.
  rewrite Z.gcd_1_r in Hg; subst g.
  destruct Hd as [Ha Hb].
  rewrite Z.mul_1_l in Ha, Hb. subst aa. rewrite <- Hb. reflexivity.
Qed.


Lemma sub_int (a b : Z) : sub (int a) (int b) = int (a - b).
Proof.
  unfold sub, int. f_equal.
  rewrite <- (Qred_inject_Z (a - b)).
  apply Qred_complete. unfold Qminus.
  replace (a - b) with (a + - b) by lia.
  rewrite inject_Z_plus, inject_Z_opp. reflexivity.
Qed.

Lemma sqlInteger_int (z : Z) : sqlInteger (VNum (int z)) = Ok z.
Proof.
  unfold sqlInteger, int, inject_Z; simpl.
  rewrite Z.mod_1_r, Z.div_1_r. reflexivity.
Qed.

Lemma isZero_int (z : Z) : isZero (int z) = (z =? 0).
Proof.
  unfold isZero, int, Qeq_bool, inject_Z; simpl.
  rewrite Z.mul_1_r. reflexivity.
Qed.

Lemma truthy_int (z : Z) : truthy (VNum (int z)) = negb (z =? 0).
Proof.
  change (truthy (VNum (int z))) with (negb (isZero (int z))).
  now rewrite isZero_int.
Qed.


Lemma integral_int (z : Z) : integral (int z).
Proof. right; eauto. Qed.

Lemma integral_NaN : integral NaN.
Proof. now left. Qed.

Create HintDb js.
#[local] Hint Resolve integral_int integral_NaN : js.







(* ===================================================================== *)
(** ** The validation layer *)
(* ===================================================================== *)





(* ===================================================================== *)
(** ** Total stock *)
(* ===================================================================== *)








(* ===================================================================== *)
(** ** Running the methods *)
(* ===================================================================== *)

Lemma bind_ok {A B} (c : M A) (k : A -> M B) (w w' : World) (b : B) :
  bind c k w = (Ok b, w') ->
  exists a w1, c w = (Ok a, w1) /\ k a w1 = (Ok b, w').
Proof.
  unfold bind. destruct (c w) as [[a | e] w1]; intros H.
  - eauto.
  - discriminate.
Qed.

Lemma lift_ok {A} (o : Outcome A) (w w' : World) (a : A) :
  lift o w = (Ok a, w') -> o = Ok a /\ w' = w.
Proof. unfold lift. intros H. inversion H. auto. Qed.

Lemma ret_ok {A} (a b : A) (w w' : World) :
  ret a w = (Ok b, w') -> b = a /\ w' = w.
Proof. unfold ret. intros H. inversion H. auto. Qed.


Lemma sumQuantities_app (a b : list SizeRow) :
  sumQuantities (a ++ b) = sumQuantities a + sumQuantities b.
Proof.
  induction a as [| r a IH]; simpl; [reflexivity |].
  unfold sumQuantities in *. simpl. rewrite IH. lia.
Qed.









Ltac run_all :=
  repeat match goal with
  | H : bind _ _ _ = (Ok _, _) |- _ =>
      let a := fresh "a" in let w1 := fresh "w" in let H1 := fresh "Hrun" in
      apply bind_ok in H; destruct H as (a & w1 & H1 & H)
  | H : lift _ _ = (Ok _, _) |- _ =>
      let E := fresh "E" in apply lift_ok in H; destruct H as [E ?]; subst
  | H : ret _ _ = (Ok _, _) |- _ =>
      apply ret_ok in H; destruct H; subst
  | u : unit |- _ => destruct u
  | H : randomUUID _ = (Ok _, _) |- _ =>
      unfold randomUUID in H; inversion H; subst; clear H
  | H : (Ok _, _) = (Ok _, _) |- _ => inversion H; subst; clear H
  | H : (if ?c then Ok _ else Throw _) = Ok _ |- _ =>
      destruct c; [inversion H; subst; clear H | discriminate H]
  | H : sqlInteger (VNum (int _)) = Ok _ |- _ =>
      rewrite sqlInteger_int in H; inversion H; subst; clear H
  end.




Lemma filter_none {A} (f : A -> bool) (l : list A) :
  (forall x, In x l -> f x = false) -> filter f l = [].
Proof.
  induction l as [| x l IH]; intros H; simpl; [reflexivity |].
  rewrite (H x (or_introl eq_refl)). apply IH. intros y Hy. apply H. now right.
Qed.



Lemma total_bound (rows : list SizeRow) :
  sqlInteger (or (sumOrNull rows) (VNum (int 0))) = Ok (sumQuantities rows).
Proof.
  destruct rows as [| r rows].
  - reflexivity.
  - unfold or, sumOrNull. rewrite truthy_int.
    destruct (Z.eqb_spec (sumQuantities (r :: rows)) 0) as [E | E]; simpl negb; cbv iota.
    + rewrite E. apply sqlInteger_int.
    + apply sqlInteger_int.
Qed.

Lemma updateStockBySize_ok (productId : string) (size quantity : value) (w w' : World) :
  Inventory.updateStockBySize productId size quantity w = (Ok tt, w') ->
  exists d label,
    sqlInteger quantity = Ok d /\ sqlText size = Ok label
    /\ product_sizes w'
       = map (fun r =>
                if String.eqb (ps_product_id r) productId && String.eqb (ps_size r) label
                then {| ps_product_id := ps_product_id r; ps_size := ps_size r;
                        ps_quantity := ps_quantity r + d |}
                else r) (product_sizes w)
    /\ products w'
       = map (fun r => if String.eqb (p_id r) productId
                       then withStock r (variantTotal productId w') else r)
             (products w)
    /\ journal w' = SetStock productId :: AddQuantity productId label :: journal w.
Proof.
  intros H.
  unfold Inventory.updateStockBySize, addQuantity, selectTotal, setStock in H.
  run_all.
  match goal with E : sqlInteger (or _ _) = _ |- _ =>
    rewrite total_bound in E; inversion E; subst; clear E end.
  do 2 eexists. repeat split; try eassumption; reflexivity.
Qed.

(* ===================================================================== *)
(** ** Stock reconciliation *)
(* ===================================================================== *)

Lemma bind_lift {A B} (a : A) (k : A -> M B) (w : World) :
  bind (lift (Ok a)) k w = k a w.
Proof. reflexivity. Qed.

Lemma updateStockBySize_total (productId label : string) (d : Z) (w : World) :
  exists w', Inventory.updateStockBySize productId (VStr label) (VNum (int d)) w
             = (Ok tt, w').
Proof.
  unfold Inventory.updateStockBySize, addQuantity, selectTotal, setStock.
  unfold bind, lift. rewrite sqlInteger_int. cbn [sqlText]. cbv beta iota.
  rewrite total_bound. eexists. reflexivity.
Qed.

(** C9: updateStockBySize overwrites the stock of the product with the
    sum of its variant rows as they stand after the statement on the
    variants, whatever the size-tracked flag says; when no variant row
    carries the given label the variant rows are left as they were; and
    on a product without variant rows the stock becomes 0. *)
Theorem updateStockBySize_overwrites_stock (productId label : string) (d : Z) (w : World) :
  exists w',
    Inventory.updateStockBySize productId (VStr label) (VNum (int d)) w = (Ok tt, w')
    /\ products w'
       = map (fun r => if String.eqb (p_id r) productId
                       then withStock r (variantTotal productId w') else r)
             (products w)
    /\ ((forall r, In r (product_sizes w) -> ps_product_id r = productId ->
           ps_size r <> label) ->
        product_sizes w' = product_sizes w)
    /\ (sizesOf productId w = [] ->
        forall row, In row (products w') -> p_id row = productId -> p_stock row = 0).
Proof.
  destruct (updateStockBySize_total productId label d w) as [w' H].
  exists w'. split; [exact H |].
  apply updateStockBySize_ok in H.
  destruct H as (d' & label' & Hd & Hl & Hsizes & Hproducts & _).
  rewrite sqlInteger_int in Hd. inversion Hd; subst d'.
  simpl in Hl. inversion Hl; subst label'.
  assert (Hnone : (forall r, In r (product_sizes w) -> ps_product_id r = productId ->
                     ps_size r <> label) -> product_sizes w' = product_sizes w).
  { intros Hno. rewrite Hsizes. rewrite <- (map_id (product_sizes w)) at 2.
    apply map_ext_in. intros r Hr.
    destruct (String.eqb_spec (ps_product_id r) productId) as [E | E]; [| reflexivity].
    destruct (String.eqb_spec (ps_size r) label) as [E' | E']; [| reflexivity].
    exfalso. exact (Hno r Hr E E'). }
  split; [exact Hproducts |]. split; [exact Hnone |].
  intros Hempty row Hrow Hid.
  assert (Hsame : product_sizes w' = product_sizes w).
  { apply Hnone. intros r Hr E. exfalso.
    assert (Hin : In r (sizesOf productId w)).
    { unfold sizesOf. apply filter_In. split; [exact Hr |]. now apply String.eqb_eq. }
    rewrite Hempty in Hin. exact Hin. }
  rewrite Hproducts in Hrow. apply in_map_iff in Hrow.
  destruct Hrow as (r & Hr & _). subst row.
  destruct (String.eqb_spec (p_id r) productId) as [E | E].
  - simpl. unfold variantTotal, sizesOf. rewrite Hsame.
    unfold sizesOf in Hempty. now rewrite Hempty.
  - contradiction.
Qed.

Lemma withStock_fields (r : ProductRow) (n : Z) :
  p_stock (withStock r n) = n
  /\ p_id (withStock r n) = p_id r /\ p_name (withStock r n) = p_name r
  /\ p_sku (withStock r n) = p_sku r /\ p_cost (withStock r n) = p_cost r
  /\ p_price (withStock r n) = p_price r /\ p_category (withStock r n) = p_category r
  /\ p_product_type (withStock r n) = p_product_type r
  /\ p_barcode (withStock r n) = p_barcode r
  /\ p_min_stock (withStock r n) = p_min_stock r
  /\ p_has_sizes (withStock r n) = p_has_sizes r
  /\ p_size_type (withStock r n) = p_size_type r.
Proof. repeat split. Qed.

(** C7: updateStockSimple adds the delta (of either sign) to the stock of
    every row of the product that is not size-tracked and changes no
    other field of it; size-tracked rows, rows of other products and the
    variant rows are left as they were. *)
Theorem updateStockSimple_adds_delta (productId : string) (d : Z) (w : World) :
  exists w',
    Inventory.updateStockSimple productId (VNum (int d)) w = (Ok tt, w')
    /\ List.length (products w') = List.length (products w)
    /\ (forall i row, nth_error (products w) i = Some row ->
          p_id row = productId -> p_has_sizes row = false ->
          exists row', nth_error (products w') i = Some row'
            /\ p_stock row' = p_stock row + d
            /\ row' = withStock row (p_stock row'))
    /\ (forall i row, nth_error (products w) i = Some row ->
          p_has_sizes row = true -> nth_error (products w') i = Some row)
    /\ (forall i row, nth_error (products w) i = Some row ->
          p_id row <> productId -> nth_error (products w') i = Some row)
    /\ product_sizes w' = product_sizes w.
Proof.
  unfold Inventory.updateStockSimple, addStockWithoutSizes, bind, lift.
  rewrite sqlInteger_int. eexists. split; [reflexivity |].
  cbn [products product_sizes setInventory].
  split; [apply length_map |].
  split; [| split; [| split; [| reflexivity]]].
  - intros i row Hi Hid Hs. rewrite nth_error_map, Hi. simpl.
    rewrite Hid, String.eqb_refl, Hs. simpl.
    eexists. split; [reflexivity |]. split; reflexivity.
  - intros i row Hi Hs. rewrite nth_error_map, Hi. simpl.
    rewrite Hs, andb_false_r. reflexivity.
  - intros i row Hi Hid. rewrite nth_error_map, Hi. simpl.
    apply String.eqb_neq in Hid. rewrite Hid. reflexivity.
Qed.













Lemma insertBy_perm {A} (le : A -> A -> bool) (x : A) (l : list A) :
  Permutation (insertBy le x l) (x :: l).
Proof.
  induction l as [| y l IH]; simpl; [reflexivity |].
  destruct (le x y); [reflexivity |].
  rewrite IH. apply perm_swap.
Qed.

Lemma sortBy_perm {A} (le : A -> A -> bool) (l : list A) :
  Permutation (sortBy le l) l.
Proof.
  induction l as [| x l IH]; simpl; [reflexivity |].
  rewrite insertBy_perm. now constructor.
Qed.






Lemma updateStockSimple_adds_delta_witness :
  exists w',
    Inventory.updateStockSimple "uuid-0" (VNum (int (-2))) (storeWith (garment 7 false []))
    = (Ok tt, w')
    /\ exists row', nth_error (products w') 0 = Some row' /\ p_stock row' = 5.
Proof.
  destruct (updateStockSimple_adds_delta "uuid-0" (-2) (storeWith (garment 7 false [])))
    as (w' & H & _ & Hadd & _).
  exists w'. split; [exact H |].
  destruct (Hadd O (withStock
                      {| p_id := "uuid-0"; p_name := VStr "Blusa"; p_sku := VStr "B-1";
                         p_cost := VNull; p_price := VNum (int 120); p_stock := 7;
                         p_category := VStr "dama"; p_product_type := VStr "ropa";
                         p_barcode := VNull; p_min_stock := VNum (int 0);
                         p_has_sizes := false; p_size_type := VNull |} 7))
    as (row' & Hrow & Hstock & _).
  - reflexivity.
  - reflexivity.
  - reflexivity.
  - exists row'. split; [exact Hrow | exact Hstock].
Defined.

Lemma updateStockBySize_overwrites_stock_witness :
  sizesOf "uuid-0" (storeWith (garment 7 false [])) = []
  /\ exists w',
       Inventory.updateStockBySize "uuid-0" (VStr "M") (VNum (int 1))
         (storeWith (garment 7 false [])) = (Ok tt, w')
       /\ forall row, In row (products w') -> p_id row = "uuid-0" -> p_stock row = 0.
Proof.
  split; [reflexivity |].
  destruct (updateStockBySize_overwrites_stock "uuid-0" "M" 1 (storeWith (garment 7 false [])))
    as (w' & H & _ & _ & Hzero).
  exists w'. split; [exact H |]. apply Hzero. reflexivity.
Defined.

(* ===================================================================== *)
(** ** Cash-register sessions *)
(* ===================================================================== *)

Lemma uuidOf_injective (n m : nat) : uuidOf n = uuidOf m -> n = m.
Proof.
  unfold uuidOf. intros H. simpl in H. inversion H as [E].
  rewrite <- (Unsigned.of_to n), <- (Unsigned.of_to m). f_equal.
  pose proof (NilEmpty.usu (Nat.to_uint n)) as Hn.
  pose proof (NilEmpty.usu (Nat.to_uint m)) as Hm.
  rewrite E in Hn. congruence.
Qed.

(** What each method does to the register table. *)

Lemma openRegister_refused (userId : string) (balance : number) (w : World) :
  CashRegister.openRegistersOf userId w <> [] ->
  CashRegister.openRegister userId balance w
  = (Throw (Error CashRegister.alreadyOpen), w).
Proof.
  intros H. unfold CashRegister.openRegister, bind, CashRegister.selectOpen.
  destruct (CashRegister.openRegistersOf userId w); [contradiction | reflexivity].
Qed.

Lemma openRegister_accepted (userId : string) (balance : number) (w : World) :
  CashRegister.openRegistersOf userId w = [] ->
  exists w',
    CashRegister.openRegister userId balance w = (Ok (uuidOf (uuids w)), w')
    /\ cash_registers w' = (cash_registers w ++ [opened userId balance w])%list
    /\ uuids w' = S (S (uuids w)).
Proof.
  intros H. unfold CashRegister.openRegister, bind, CashRegister.selectOpen.
  rewrite H. eexists. split; [reflexivity |]. split; reflexivity.
Qed.

Lemma closeRegister_refused (userId : string) (c e : number) (w : World) :
  CashRegister.openRegistersOf userId w = [] ->
  CashRegister.closeRegister userId c e w
  = (Throw (Error CashRegister.noOpenRegister), w).
Proof.
  intros H. unfold CashRegister.closeRegister, bind, CashRegister.selectOpen.
  now rewrite H.
Qed.

Lemma closeRegister_accepted (userId : string) (c e : number) (w : World)
    (row : RegisterRow) (others : list RegisterRow) :
  CashRegister.openRegistersOf userId w = row :: others ->
  CashRegister.closeRegister userId c e w
  = (Ok tt,
     setCash
       (map (fun r => if String.eqb (r_id r) (r_id row)
                      then CashRegister.closed r c e (sub c e) userId (clock w)
                      else r) (cash_registers w))
       (cash_movements w) (CloseRegister (r_id row)) w).
Proof.
  intros H. unfold CashRegister.closeRegister, bind, CashRegister.selectOpen.
  now rewrite H.
Qed.

Lemma addMovement_registers (userId : string) (t : MovementType) (amount : number)
    (concept : string) (w : World) :
  cash_registers (snd (CashRegister.addMovement userId t amount concept w))
  = cash_registers w
  /\ (uuids w <= uuids (snd (CashRegister.addMovement userId t amount concept w)))%nat.
Proof.
  unfold CashRegister.addMovement, bind, CashRegister.selectOpen.
  destruct (CashRegister.openRegistersOf userId w); simpl; split; auto.
Qed.

Lemma filter_map_length {A} (p : A -> bool) (f : A -> A) (l : list A) :
  (forall x, p (f x) = true -> p x = true) ->
  (List.length (filter p (map f l)) <= List.length (filter p l))%nat.
Proof.
  intros H. induction l as [| x l IH]; simpl; [lia |].
  destruct (p (f x)) eqn:E.
  - rewrite (H x E). simpl. lia.
  - destruct (p x); simpl; lia.
Qed.

Lemma closed_not_open (r : RegisterRow) (c e d : number) (u : string) (now : nat) :
  CashRegister.isOpen (CashRegister.closed r c e d u now) = false.
Proof. reflexivity. Qed.

Lemma NoDup_map_eq {A B} (f : A -> B) (l : list A) (a b : A) :
  NoDup (map f l) -> In a l -> In b l -> f a = f b -> a = b.
Proof.
  induction l as [| x l IH]; simpl; intros Hnd Ha Hb E; [contradiction |].
  inversion Hnd as [| ? ? Hnotin Hnd']; subst.
  destruct Ha as [Ha | Ha], Hb as [Hb | Hb]; subst.
  - reflexivity.
  - exfalso. apply Hnotin. rewrite E. now apply in_map.
  - exfalso. apply Hnotin. rewrite <- E. now apply in_map.
  - now apply IH.
Qed.

Lemma open_consistent (userId : string) (balance : number) (w : World) :
  registersConsistent w ->
  registersConsistent (snd (CashRegister.openRegister userId balance w)).
Proof.
  intros (Hone & Hnd & Hissued).
  destruct (CashRegister.openRegistersOf userId w) eqn:E.
  - destruct (openRegister_accepted userId balance w E) as (w' & Hrun & Hregs & Hu).
    rewrite Hrun. simpl. split; [| split].
    + intros u. unfold CashRegister.openRegistersOf. rewrite Hregs, filter_app.
      rewrite length_app. simpl.
      destruct (String.eqb_spec userId u) as [-> | Hne].
      * fold (CashRegister.openRegistersOf u w). rewrite E. simpl.
        lia.
      * specialize (Hone u). unfold CashRegister.openRegistersOf in Hone.
        simpl. lia.
    + rewrite Hregs, map_app. simpl. apply NoDup_app_remove_l with (l := []).
      simpl. apply Permutation_NoDup with (l := uuidOf (uuids w) :: map r_id (cash_registers w)).
      * apply Permutation_cons_append.
      * constructor; [| assumption].
        intros Hin. apply in_map_iff in Hin. destruct Hin as (r & Hid & Hr).
        destruct (Hissued r Hr) as (n & Hlt & Hn).
        rewrite Hn in Hid. apply uuidOf_injective in Hid. lia.
    + intros r Hr. rewrite Hregs in Hr. apply in_app_or in Hr.
      rewrite Hu. destruct Hr as [Hr | [Hr | []]].
      * destruct (Hissued r Hr) as (n & Hlt & Hn). exists n. split; [lia | assumption].
      * subst r. exists (uuids w). split; [lia | reflexivity].
  - rewrite openRegister_refused by (rewrite E; discriminate).
    simpl. repeat split; assumption.
Qed.

Lemma close_consistent (userId : string) (c e : number) (w : World) :
  registersConsistent w ->
  registersConsistent (snd (CashRegister.closeRegister userId c e w)).
Proof.
  intros (Hone & Hnd & Hissued).
  destruct (CashRegister.openRegistersOf userId w) as [| row others] eqn:E.
  - rewrite closeRegister_refused by assumption. simpl. repeat split; assumption.
  - rewrite (closeRegister_accepted _ _ _ _ _ _ E).
    unfold registersConsistent, setCash. simpl. split; [| split].
    + intros u. unfold CashRegister.openRegistersOf. simpl.
      etransitivity; [| apply (Hone u)].
      apply filter_map_length. intros x.
      destruct (String.eqb (r_id x) (r_id row)); [| auto].
      simpl. rewrite andb_false_r. discriminate.
    + rewrite map_map.
      erewrite map_ext; [exact Hnd |].
      intros r. simpl. destruct (String.eqb (r_id r) (r_id row)); reflexivity.
    + intros r Hr. apply in_map_iff in Hr. destruct Hr as (r0 & Hr0 & Hin).
      destruct (Hissued r0 Hin) as (n & Hlt & Hn). exists n. split; [assumption |].
      subst r. destruct (String.eqb (r_id r0) (r_id row)); assumption.
Qed.

Lemma addMovement_consistent (userId : string) (t : MovementType) (amount : number)
    (concept : string) (w : World) :
  registersConsistent w ->
  registersConsistent (snd (CashRegister.addMovement userId t amount concept w)).
Proof.
  intros (Hone & Hnd & Hissued).
  destruct (addMovement_registers userId t amount concept w) as [Hregs Hu].
  split; [| split].
  - intros u. unfold CashRegister.openRegistersOf. rewrite Hregs. apply Hone.
  - now rewrite Hregs.
  - intros r Hr. rewrite Hregs in Hr. destruct (Hissued r Hr) as (n & Hlt & Hn).
    exists n. split; [lia | assumption].
Qed.

Lemma after_consistent (c : Call) (w : World) :
  registersConsistent w -> registersConsistent (after c w).
Proof.
  destruct c; simpl.
  - apply open_consistent.
  - apply close_consistent.
  - apply addMovement_consistent.
Qed.

Lemma afterAll_consistent (calls : list Call) :
  forall w, registersConsistent w -> registersConsistent (afterAll calls w).
Proof.
  induction calls as [| c calls IH]; intros w H; simpl; [assumption |].
  apply IH. now apply after_consistent.
Qed.

Lemma no_registers_consistent (w : World) :
  cash_registers w = [] -> registersConsistent w.
Proof.
  intros H. unfold registersConsistent, CashRegister.openRegistersOf. rewrite H.
  simpl. split; [intros; lia |]. split; [constructor | intros ? []].
Qed.

Lemma openRegistersOf_In (userId : string) (w : World) (row : RegisterRow) :
  In row (CashRegister.openRegistersOf userId w) ->
  In row (cash_registers w) /\ r_user_id row = userId /\ r_status row = abierta.
Proof.
  unfold CashRegister.openRegistersOf. intros H. apply filter_In in H.
  destruct H as [Hin H]. apply andb_true_iff in H. destruct H as [Hu Ho].
  apply String.eqb_eq in Hu. unfold CashRegister.isOpen in Ho.
  destruct (r_status row); [auto | discriminate].
Qed.

Lemma closed_row_persists (c : Call) (w : World) (row : RegisterRow) :
  registersConsistent w ->
  In row (cash_registers w) -> r_status row = cerrada ->
  In row (cash_registers (after c w)).
Proof.
  intros (_ & Hnd & _) Hin Hclosed. destruct c as [u b | u c e | u t a k]; simpl.
  - destruct (CashRegister.openRegistersOf u w) eqn:E.
    + destruct (openRegister_accepted u b w E) as (w' & Hrun & Hregs & _).
      rewrite Hrun. simpl. rewrite Hregs. apply in_or_app. now left.
    + rewrite openRegister_refused by (rewrite E; discriminate). assumption.
  - destruct (CashRegister.openRegistersOf u w) as [| target others] eqn:E.
    + rewrite closeRegister_refused by assumption. assumption.
    + rewrite (closeRegister_accepted _ _ _ _ _ _ E). unfold setCash. simpl.
      apply in_map_iff. exists row. split; [| assumption].
      destruct (String.eqb_spec (r_id row) (r_id target)) as [Hid | Hid]; [| reflexivity].
      exfalso.
      assert (Ht : In target (CashRegister.openRegistersOf u w)) by (rewrite E; now left).
      apply openRegistersOf_In in Ht. destruct Ht as (Ht & _ & Hopen).
      pose proof (NoDup_map_eq r_id _ _ _ Hnd Hin Ht Hid) as Heq.
      congruence.
  - destruct (addMovement_registers u t a k w) as [Hregs _]. now rewrite Hregs.
Qed.

Lemma closed_row_persists_all (calls : list Call) :
  forall (w : World) (row : RegisterRow),
  registersConsistent w ->
  In row (cash_registers w) -> r_status row = cerrada ->
  In row (cash_registers (afterAll calls w)).
Proof.
  induction calls as [| c calls IH]; intros w row Hw Hin Hclosed; simpl; [assumption |].
  apply IH.
  - now apply after_consistent.
  - now apply closed_row_persists.
  - assumption.
Qed.

(** C2: in every store reached from one without registers by any
    sequence of openRegister, closeRegister and addMovement calls, each
    user has at most one open register; openRegister throws "Ya tienes
    una caja abierta" and changes nothing whenever the user has an open
    register; and a register that is closed stays in the table unchanged
    through every later call, no register with its identifier ever being
    open again. *)
Theorem at_most_one_open_register (start : World) (calls : list Call) :
  cash_registers start = [] ->
  (forall userId,
      (List.length (CashRegister.openRegistersOf userId (afterAll calls start)) <= 1)%nat)
  /\ (forall userId openingBalance,
        CashRegister.openRegistersOf userId (afterAll calls start) <> [] ->
        CashRegister.openRegister userId openingBalance (afterAll calls start)
        = (Throw (Error CashRegister.alreadyOpen), afterAll calls start))
  /\ (forall (later : list Call) (row : RegisterRow),
        In row (cash_registers (afterAll calls start)) ->
        r_status row = cerrada ->
        In row (cash_registers (afterAll later (afterAll calls start)))
        /\ forall row', In row' (cash_registers (afterAll later (afterAll calls start))) ->
             r_id row' = r_id row -> r_status row' = cerrada).
Proof.
  intros Hstart.
  pose proof (afterAll_consistent calls start (no_registers_consistent start Hstart)) as Hw.
  split; [exact (proj1 Hw) |].
  split; [intros; now apply openRegister_refused |].
  intros later row Hin Hclosed.
  pose proof (closed_row_persists_all later _ row Hw Hin Hclosed) as Hlater.
  split; [exact Hlater |].
  intros row' Hin' Hid.
  destruct (afterAll_consistent later _ Hw) as (_ & Hnd & _).
  rewrite (NoDup_map_eq r_id _ _ _ Hnd Hin' Hlater Hid). assumption.
Qed.

Lemma closed_targets_gone (userId : string) (c e : number) (w : World)
    (row : RegisterRow) :
  CashRegister.openRegistersOf userId w = [row] ->
  CashRegister.openRegistersOf userId
    (snd (CashRegister.closeRegister userId c e w)) = [].
Proof.
  intros E. rewrite (closeRegister_accepted _ _ _ _ _ _ E).
  unfold CashRegister.openRegistersOf, setCash. simpl.
  apply filter_none. intros r Hr. apply in_map_iff in Hr.
  destruct Hr as (r0 & Hr0 & Hin). subst r.
  destruct (String.eqb_spec (r_id r0) (r_id row)) as [Hid | Hid].
  - simpl. apply andb_false_r.
  - destruct (String.eqb (r_user_id r0) userId && CashRegister.isOpen r0) eqn:Ho;
      [| reflexivity].
    exfalso.
    assert (Hopen : In r0 (CashRegister.openRegistersOf userId w)).
    { unfold CashRegister.openRegistersOf. apply filter_In. now split. }
    rewrite E in Hopen. destruct Hopen as [-> | []]. now apply Hid.
Qed.

(** C3: closeRegister throws "No tienes una caja abierta" exactly when
    the user has no open register, and then leaves the store as it was.
    Otherwise it executes a single data-modifying statement, which sets
    the first open register of the user to closed with the closing
    balance, the expected balance, their difference closing - expected,
    the closing user and the closing time, and leaves its other columns
    and the other tables alone; in a store reached from one without
    registers, a second closeRegister right after a successful one
    throws "No tienes una caja abierta". *)
Theorem closeRegister_contract (userId : string) (closingBalance expectedBalance : number)
    (w : World) :
  (fst (CashRegister.closeRegister userId closingBalance expectedBalance w)
     = Throw (Error CashRegister.noOpenRegister)
   <-> CashRegister.openRegistersOf userId w = [])
  /\ (CashRegister.openRegistersOf userId w = [] ->
      snd (CashRegister.closeRegister userId closingBalance expectedBalance w) = w)
  /\ (forall row others,
        CashRegister.openRegistersOf userId w = row :: others ->
        exists w' row',
          CashRegister.closeRegister userId closingBalance expectedBalance w = (Ok tt, w')
          /\ journal w' = CloseRegister (r_id row) :: journal w
          /\ In row' (cash_registers w')
          /\ r_id row' = r_id row
          /\ r_status row' = cerrada
          /\ r_closing_balance row' = VNum closingBalance
          /\ r_expected_balance row' = VNum expectedBalance
          /\ r_difference row' = VNum (sub closingBalance expectedBalance)
          /\ r_closed_by_user_id row' = Some userId
          /\ r_closed_at row' = Some (clock w)
          /\ r_user_id row' = r_user_id row
          /\ r_opening_balance row' = r_opening_balance row
          /\ r_opened_at row' = r_opened_at row
          /\ products w' = products w /\ product_sizes w' = product_sizes w
          /\ cash_movements w' = cash_movements w)
  /\ (forall start calls,
        cash_registers start = [] -> w = afterAll calls start ->
        forall closing expected,
          fst (CashRegister.closeRegister userId closingBalance expectedBalance w) = Ok tt ->
          fst (CashRegister.closeRegister userId closing expected
                 (snd (CashRegister.closeRegister userId closingBalance expectedBalance w)))
          = Throw (Error CashRegister.noOpenRegister)).
Proof.
  split; [| split; [| split]].
  - destruct (CashRegister.openRegistersOf userId w) as [| row others] eqn:E.
    + rewrite closeRegister_refused by assumption. simpl. tauto.
    + rewrite (closeRegister_accepted _ _ _ _ _ _ E). simpl.
      split; discriminate.
  - intros E. now rewrite closeRegister_refused.
  - intros row others E. rewrite (closeRegister_accepted _ _ _ _ _ _ E).
    exists (setCash
       (map (fun r => if String.eqb (r_id r) (r_id row)
                      then CashRegister.closed r closingBalance expectedBalance
                             (sub closingBalance expectedBalance) userId (clock w)
                      else r) (cash_registers w))
       (cash_movements w) (CloseRegister (r_id row)) w).
    exists (CashRegister.closed row closingBalance expectedBalance
              (sub closingBalance expectedBalance) userId (clock w)).
    split; [reflexivity |]. split; [reflexivity |].
    split; [| repeat split].
    unfold setCash. simpl. apply in_map_iff. exists row.
    rewrite String.eqb_refl. split; [reflexivity |].
    assert (Hin : In row (CashRegister.openRegistersOf userId w)) by (rewrite E; now left).
    now apply openRegistersOf_In in Hin.
  - intros start calls Hstart Hw closing expected Hok.
    pose proof (afterAll_consistent calls start (no_registers_consistent start Hstart))
      as (Hone & _). rewrite <- Hw in Hone. specialize (Hone userId).
    destruct (CashRegister.openRegistersOf userId w) as [| row others] eqn:E.
    + rewrite closeRegister_refused in Hok by assumption. discriminate.
    + destruct others; [| simpl in Hone; lia].
      rewrite closeRegister_refused; [reflexivity |].
      now apply closed_targets_gone with (row := row).
Qed.






Lemma at_most_one_open_register_witness :
  (List.length (CashRegister.openRegistersOf "u1" (afterAll shift emptyWorld)) <= 1)%nat
  /\ CashRegister.openRegister "u1" (int 50) (afterAll shift emptyWorld)
     = (Throw (Error CashRegister.alreadyOpen), afterAll shift emptyWorld).
Proof.
  destruct (at_most_one_open_register emptyWorld shift eq_refl) as (Hone & Hrefuse & _).
  split.
  - apply Hone.
  - apply Hrefuse. vm_compute. discriminate.
Defined.

Lemma closeRegister_contract_witness :
  exists w' row',
    CashRegister.closeRegister "u1" (int 78) (int 80) (afterAll shift emptyWorld)
    = (Ok tt, w')
    /\ In row' (cash_registers w')
    /\ r_status row' = cerrada
    /\ r_difference row' = VNum (int (-2))
    /\ fst (CashRegister.closeRegister "u1" (int 78) (int 80) w')
       = Throw (Error CashRegister.noOpenRegister).
Proof.
  destruct (closeRegister_contract "u1" (int 78) (int 80) (afterAll shift emptyWorld))
    as (_ & _ & Hclose & Htwice).
  destruct (Hclose _ _ eq_refl)
    as (w' & row' & Hrun & _ & Hin & _ & Hstatus & _ & _ & Hdiff & _).
  exists w', row'.
  split; [exact Hrun |]. split; [exact Hin |]. split; [exact Hstatus |].
  split; [exact Hdiff |].
  pose proof (Htwice emptyWorld shift eq_refl eq_refl (int 78) (int 80)) as H2.
  rewrite Hrun in H2. apply H2. reflexivity.
Defined.



(* ===================================================================== *)
(** ** The request handlers *)
(* ===================================================================== *)

(** The create path answers 400 with the reason of the validation layer
    and leaves the store as it was. *)
Lemma createProduct_rejects_invalid (req : InventoryController.Request) (w : World)
    (v : Inventory.ValidationResult) :
  Inventory.validateProductData (InventoryController.body req) = Ok v ->
  Inventory.isValid v = false ->
  InventoryController.createProduct req w
  = (Ok {| InventoryController.status := 400;
           InventoryController.message := Inventory.error v;
           InventoryController.created := None |}, w).
Proof.
  intros Hv Hinvalid. unfold InventoryController.createProduct.
  destruct (InventoryController.body req) eqn:Eb; try discriminate;
    unfold bind, lift; cbn [InventoryController.destructure]; rewrite Hv, Hinvalid;
    reflexivity.
Qed.

(** C4 fails on the update path: a body with cost -1 is rejected by
    validateProductData with "Costo inválido" and by the create handler
    with status 400 and no write, while the update handler answers 200
    after executing its two statements, storing the cost -1. *)
Lemma updateProduct_skips_validation :
  Inventory.validateProductData (InventoryController.body negativeCostRequest)
    = Ok (Inventory.reject Inventory.invalidCost)
  /\ InventoryController.createProduct negativeCostRequest (storeWith (garment 7 false []))
     = (Ok {| InventoryController.status := 400;
              InventoryController.message := Some Inventory.invalidCost;
              InventoryController.created := None |},
        storeWith (garment 7 false []))
  /\ fst (InventoryController.updateProduct negativeCostRequest (storeWith (garment 7 false [])))
     = Ok (InventoryController.respond 200 "Producto actualizado exitosamente")
  /\ journal (snd (InventoryController.updateProduct negativeCostRequest
                     (storeWith (garment 7 false []))))
     = DeleteSizes "uuid-0" :: UpdateProduct "uuid-0"
         :: journal (storeWith (garment 7 false []))
  /\ map p_cost (products (snd (InventoryController.updateProduct negativeCostRequest
                                  (storeWith (garment 7 false [])))))
     = [VNum (int (-1))].
Proof. repeat split; reflexivity. Qed.

(* ===================================================================== *)
(** ** Further properties of the services, handlers and middleware *)
(* ===================================================================== *)

(** X1: a body that validateProductData accepts has a price that
    parses to a number above zero, a product type 'ropa' or 'otros', and a
    cost that parseCost turns into null or into a number that is not
    negative -- what the create handler hands to the service. *)
Theorem accepted_input_parses (fields : list (string * value))
    (v : Inventory.ValidationResult) :
  Inventory.validateProductData (VObj fields) = Ok v ->
  Inventory.isValid v = true ->
  gtZero (parseFloat (lookup "price" fields)) = true
  /\ (lookup "productType" fields = VStr "ropa"
      \/ lookup "productType" fields = VStr "otros")
  /\ (Inventory.parseCost (lookup "cost" fields) = VNull
      \/ exists n, Inventory.parseCost (lookup "cost" fields) = VNum n
                   /\ isNaN n = false /\ ltZero n = false).
Proof.
  unfold Inventory.validateProductData, getProp. cbv zeta.
  intros H Hvalid.
  destruct (negb (truthy (lookup "name" fields)) || negb (truthy (lookup "sku" fields))
            || Inventory.isUndefinedOrNull (lookup "price" fields)
            || negb (truthy (lookup "category" fields))
            || negb (truthy (lookup "productType" fields)));
    [inversion H; subst v; discriminate |].
  destruct (Inventory.isProductType (lookup "productType" fields)) eqn:Ht;
    cbn [negb] in H; [| inversion H; subst v; discriminate].
  destruct (isNaN (parseFloat (lookup "price" fields))
            || leZero (parseFloat (lookup "price" fields))) eqn:Hp;
    [inversion H; subst v; discriminate |].
  destruct (negb (Inventory.isUndefinedOrNull (lookup "cost" fields))
            && negb (Inventory.isEmptyString (lookup "cost" fields))
            && (isNaN (parseFloat (lookup "cost" fields))
                || ltZero (parseFloat (lookup "cost" fields)))) eqn:Hc;
    [inversion H; subst v; discriminate |].
  split; [| split].
  - apply orb_false_iff in Hp. destruct Hp as [Hnan Hle].
    destruct (parseFloat (lookup "price" fields)); simpl in *;
      try discriminate; now rewrite ?Hle.
  - unfold Inventory.isProductType in Ht.
    destruct (lookup "productType" fields); try discriminate.
    apply orb_true_iff in Ht. destruct Ht as [E | E]; apply String.eqb_eq in E;
      subst; auto.
  - unfold Inventory.parseCost.
    destruct (Inventory.isUndefinedOrNull (lookup "cost" fields)); [now left |].
    destruct (Inventory.isEmptyString (lookup "cost" fields)); [now left |].
    cbn [negb andb orb] in *.
    apply orb_false_iff in Hc. destruct Hc as [Hnan Hlt].
    rewrite Hnan. right. eexists. repeat split; assumption.
Qed.






(** X4: getProductWithSizes leaves the store alone and returns null
    exactly when no product row carries the identifier; otherwise it
    returns a product with that identifier, whose sizes are absent when it
    is not size-tracked and are its variant rows when it is. *)
Theorem getProductWithSizes_missing (productId : string) (w : World) :
  snd (Inventory.getProductWithSizes productId w) = w
  /\ (fst (Inventory.getProductWithSizes productId w) = Ok None
      <-> forall row, In row (products w) -> p_id row <> productId)
  /\ (forall row, In row (products w) -> p_id row = productId ->
        exists p, fst (Inventory.getProductWithSizes productId w) = Ok (Some p)
                  /\ Inventory.id p = productId
                  /\ (Inventory.hasSizes p = false -> Inventory.sizes p = None)
                  /\ (Inventory.hasSizes p = true ->
                        exists read, Inventory.sizes p = Some read
                          /\ Permutation read (sizesOf productId w))).
Proof.
  unfold Inventory.getProductWithSizes, bind, selectProduct, selectSizes, ret.
  destruct (filter (fun r => String.eqb (p_id r) productId) (products w))
    as [| product others] eqn:E.
  - split; [reflexivity |]. split.
    + split; [| reflexivity]. intros _ row Hin Hid.
      assert (Hf : In row (filter (fun r => String.eqb (p_id r) productId) (products w))).
      { apply filter_In. split; [assumption | now apply String.eqb_eq]. }
      rewrite E in Hf. exact Hf.
    + intros row Hin Hid. exfalso.
      assert (Hf : In row (filter (fun r => String.eqb (p_id r) productId) (products w))).
      { apply filter_In. split; [assumption | now apply String.eqb_eq]. }
      rewrite E in Hf. exact Hf.
  - assert (Hproduct : In product (products w) /\ p_id product = productId).
    { assert (Hin : In product (product :: others)) by now left.
      rewrite <- E in Hin. apply filter_In in Hin. destruct Hin as [Hin Hp].
      split; [assumption | now apply String.eqb_eq]. }
    destruct Hproduct as [Hpin Hpid].
    split; [destruct (p_has_sizes product); reflexivity |]. split.
    + split.
      * intros Hx. destruct (p_has_sizes product); cbn in Hx; discriminate Hx.
      * intros Hnone. exfalso. exact (Hnone product Hpin Hpid).
    + intros _ _ _. destruct (p_has_sizes product) eqn:Hhas; cbn [fst].
      * eexists. split; [reflexivity |]. cbn. split; [assumption |].
        split; [intros Hx; congruence |]. intros _. eexists. split; [reflexivity |].
        rewrite Hpid. apply sortBy_perm.
      * eexists. split; [reflexivity |]. cbn. split; [assumption |].
        split; [reflexivity |]. intros Habs. congruence.
Qed.

Lemma updateStockSimple_products (productId : string) (d : Z) (w : World) :
  Inventory.updateStockSimple productId (VNum (int d)) w
  = (Ok tt,
     setInventory
       (map (fun r => if String.eqb (p_id r) productId && Bool.eqb (p_has_sizes r) false
                      then withStock r (p_stock r + d) else r) (products w))
       (product_sizes w) (AddStock productId) w).
Proof.
  unfold Inventory.updateStockSimple, addStockWithoutSizes, bind, lift.
  now rewrite sqlInteger_int.
Qed.

Lemma withStock_same (r : ProductRow) : withStock r (p_stock r) = r.
Proof. destruct r; reflexivity. Qed.

(** X5: two updateStockSimple calls on a product leave the product table
    as a single call with the sum of the deltas does; in particular a
    delta followed by its opposite restores the product table. *)
Theorem updateStockSimple_composes (productId : string) (d1 d2 : Z) (w : World) :
  products (snd (Inventory.updateStockSimple productId (VNum (int d2))
                   (snd (Inventory.updateStockSimple productId (VNum (int d1)) w))))
  = products (snd (Inventory.updateStockSimple productId (VNum (int (d1 + d2))) w))
  /\ (d1 + d2 = 0 ->
      products (snd (Inventory.updateStockSimple productId (VNum (int d2))
                       (snd (Inventory.updateStockSimple productId (VNum (int d1)) w))))
      = products w).
Proof.
  rewrite !updateStockSimple_products. cbn [snd setInventory products].
  rewrite map_map.
  assert (Hstep : forall r,
    (fun r => if String.eqb (p_id r) productId && Bool.eqb (p_has_sizes r) false
              then withStock r (p_stock r + d2) else r)
      (if String.eqb (p_id r) productId && Bool.eqb (p_has_sizes r) false
       then withStock r (p_stock r + d1) else r)
    = if String.eqb (p_id r) productId && Bool.eqb (p_has_sizes r) false
      then withStock r (p_stock r + (d1 + d2)) else r).
  { intros r.
    destruct (String.eqb (p_id r) productId && Bool.eqb (p_has_sizes r) false) eqn:E.
    - cbn [withStock p_id p_has_sizes p_stock]. rewrite E.
      unfold withStock. cbn. f_equal. lia.
    - now rewrite E. }
  split.
  - apply map_ext. exact Hstep.
  - intros Hzero. rewrite <- (map_id (products w)) at 2.
    apply map_ext. intros r. rewrite Hstep, Hzero, Z.add_0_r.
    destruct (_ && _); [apply withStock_same | reflexivity].
Qed.

Lemma sumQuantities_cons (r : SizeRow) (l : list SizeRow) :
  sumQuantities (r :: l) = ps_quantity r + sumQuantities l.
Proof. reflexivity. Qed.

Lemma bumped_total (productId label : string) (d : Z) (rows : list SizeRow) :
  sumQuantities
    (filter (fun r => String.eqb (ps_product_id r) productId)
       (map (fun r =>
               if String.eqb (ps_product_id r) productId && String.eqb (ps_size r) label
               then {| ps_product_id := ps_product_id r; ps_size := ps_size r;
                       ps_quantity := ps_quantity r + d |}
               else r) rows))
  = sumQuantities (filter (fun r => String.eqb (ps_product_id r) productId) rows)
    + d * Z.of_nat (List.length (filter (labelled productId label) rows)).
Proof.
  induction rows as [| r rows IH].
  - simpl. lia.
  - cbn [map filter]. unfold labelled at 1.
    destruct (String.eqb (ps_product_id r) productId) eqn:Ep;
      destruct (String.eqb (ps_size r) label) eqn:El; cbn [andb ps_product_id];
      rewrite ?Ep; cbn [List.length]; rewrite ?sumQuantities_cons, IH;
      cbn [ps_quantity]; lia.
Qed.

Lemma bumped_other (productId label other : string) (d : Z) (rows : list SizeRow) :
  other <> productId ->
  filter (fun r => String.eqb (ps_product_id r) other)
    (map (fun r =>
            if String.eqb (ps_product_id r) productId && String.eqb (ps_size r) label
            then {| ps_product_id := ps_product_id r; ps_size := ps_size r;
                    ps_quantity := ps_quantity r + d |}
            else r) rows)
  = filter (fun r => String.eqb (ps_product_id r) other) rows.
Proof.
  intros Hother. induction rows as [| r rows IH]; [reflexivity |].
  cbn [map filter]. rewrite IH.
  destruct (String.eqb_spec (ps_product_id r) productId) as [E | E];
    [| reflexivity].
  assert (Hne : String.eqb (ps_product_id r) other = false)
    by (apply String.eqb_neq; congruence).
  destruct (String.eqb (ps_size r) label); cbn [andb ps_product_id];
    now rewrite Hne.
Qed.

(** X6: updateStockBySize with an integer delta d moves the sum of the
    variant rows of the product by d for every row that carries the label
    (quantities may go below zero: nothing is clamped or rejected), writes
    that sum as stock on the rows of the product, and leaves the variants
    of every other product alone. *)
Theorem updateStockBySize_moves_total (productId label : string) (d : Z) (w : World) :
  exists w',
    Inventory.updateStockBySize productId (VStr label) (VNum (int d)) w = (Ok tt, w')
    /\ variantTotal productId w'
       = variantTotal productId w
         + d * Z.of_nat (List.length (filter (labelled productId label) (product_sizes w)))
    /\ (forall row, In row (products w') -> p_id row = productId ->
          p_stock row
          = variantTotal productId w
            + d * Z.of_nat (List.length (filter (labelled productId label) (product_sizes w))))
    /\ (forall other, other <> productId -> sizesOf other w' = sizesOf other w).
Proof.
  destruct (updateStockBySize_total productId label d w) as [w' H].
  exists w'. split; [exact H |].
  apply updateStockBySize_ok in H.
  destruct H as (d' & label' & Hd & Hl & Hsizes & Hproducts & _).
  rewrite sqlInteger_int in Hd. inversion Hd; subst d'.
  simpl in Hl. inversion Hl; subst label'.
  assert (Htotal : variantTotal productId w'
       = variantTotal productId w
         + d * Z.of_nat (List.length (filter (labelled productId label) (product_sizes w)))).
  { unfold variantTotal, sizesOf. rewrite Hsizes. apply bumped_total. }
  split; [exact Htotal |]. split.
  - intros row Hin Hid. rewrite Hproducts in Hin. apply in_map_iff in Hin.
    destruct Hin as (r & Hr & _). subst row.
    destruct (String.eqb_spec (p_id r) productId) as [E | E].
    + cbn [withStock p_stock]. exact Htotal.
    + contradiction.
  - intros other Hother. unfold sizesOf. rewrite Hsizes.
    now apply bumped_other.
Qed.







(** X10: the updateStock handler answers 200 "Stock actualizado
    exitosamente" also when it changes nothing: with an integer quantity,
    if every product row with the requested identifier is size-tracked
    (in particular if there is none), the tables are left as they were. *)
Theorem updateStock_handler_silent (req : InventoryController.Request) (n : Z)
    (w : World) :
  getProp (InventoryController.body req) "quantity" = Ok (VNum (int n)) ->
  (forall row, In row (products w) ->
     p_id row = InventoryController.params_id req -> p_has_sizes row = true) ->
  exists w',
    InventoryController.updateStock req w
    = (Ok (InventoryController.respond 200 "Stock actualizado exitosamente"), w')
    /\ products w' = products w
    /\ product_sizes w' = product_sizes w.
Proof.
  intros Hq Hnone. unfold InventoryController.updateStock.
  rewrite Hq. unfold bind at 1. cbn [lift]. unfold catch, bind, ret.
  rewrite updateStockSimple_products.
  eexists. split; [reflexivity |]. unfold setInventory. cbn [products product_sizes].
  split; [| reflexivity].
  rewrite <- (map_id (products w)) at 2. apply map_ext_in. intros r Hr.
  destruct (String.eqb_spec (p_id r) (InventoryController.params_id req)) as [E | E];
    [| reflexivity].
  now rewrite (Hnone r Hr E).
Qed.

Lemma openRegister_run (userId : string) (balance : number) (w : World) :
  CashRegister.openRegistersOf userId w = [] ->
  CashRegister.openRegister userId balance w
  = (Ok (uuidOf (uuids w)),
     {| products := products w; product_sizes := product_sizes w;
        cash_registers := (cash_registers w ++ [opened userId balance w])%list;
        cash_movements := (cash_movements w ++ [openingMovement userId balance w])%list;
        users := users w;
        journal := InsertMovement (uuidOf (S (uuids w)))
                     :: InsertRegister (uuidOf (uuids w)) :: journal w;
        clock := S (S (clock w));
        uuids := S (S (uuids w)) |}).
Proof.
  intros H. unfold CashRegister.openRegister, bind, CashRegister.selectOpen.
  rewrite H. reflexivity.
Qed.

(** X11: openRegister for a user without an open register returns a new
    identifier, appends the opening movement (an inflow of the opening
    balance with concept "Apertura de caja" on the new register), and
    getCurrentRegister then returns that register: open, with the opening
    balance, and with no closing data. *)
Theorem openRegister_then_current (userId : string) (balance : number) (w : World) :
  CashRegister.openRegistersOf userId w = [] ->
  exists w' reg,
    CashRegister.openRegister userId balance w = (Ok (uuidOf (uuids w)), w')
    /\ cash_movements w' = (cash_movements w ++ [openingMovement userId balance w])%list
    /\ fst (CashRegister.getCurrentRegister userId w') = Ok (Some reg)
    /\ CashRegister.id reg = uuidOf (uuids w)
    /\ CashRegister.userId reg = userId
    /\ CashRegister.openingBalance reg = balance
    /\ CashRegister.status reg = abierta
    /\ CashRegister.closingBalance reg = None
    /\ CashRegister.expectedBalance reg = None
    /\ CashRegister.difference reg = None
    /\ CashRegister.closedAt reg = None.
Proof.
  intros H. rewrite (openRegister_run _ _ _ H).
  do 2 eexists. split; [reflexivity |]. cbn [cash_movements]. split; [reflexivity |].
  unfold CashRegister.getCurrentRegister, bind, CashRegister.selectLatestOpen, ret.
  unfold CashRegister.openRegistersOf in *. cbn [cash_registers].
  rewrite filter_app, H. cbn [app filter opened r_user_id CashRegister.isOpen r_status].
  rewrite String.eqb_refl. cbn.
  repeat split.
Qed.

(** X12: addMovement throws "No tienes una caja abierta" exactly when the
    user has no open register, and then leaves the store as it was;
    otherwise it returns a new identifier and appends one movement with the
    given type, amount and concept to the first open register of the
    user, in a single statement that leaves the registers alone. *)
Theorem addMovement_contract (userId : string) (t : MovementType) (amount : number)
    (concept : string) (w : World) :
  (fst (CashRegister.addMovement userId t amount concept w)
     = Throw (Error CashRegister.noOpenRegister)
   <-> CashRegister.openRegistersOf userId w = [])
  /\ (CashRegister.openRegistersOf userId w = [] ->
      snd (CashRegister.addMovement userId t amount concept w) = w)
  /\ (forall row others,
        CashRegister.openRegistersOf userId w = row :: others ->
        exists w',
          CashRegister.addMovement userId t amount concept w
          = (Ok (uuidOf (uuids w)), w')
          /\ cash_movements w'
             = (cash_movements w ++
                [{| m_id := uuidOf (uuids w); m_register_id := r_id row;
                    m_user_id := userId; m_type := t; m_amount := VNum amount;
                    m_concept := concept; m_date := clock w |}])%list
          /\ cash_registers w' = cash_registers w
          /\ journal w' = InsertMovement (uuidOf (uuids w)) :: journal w).
Proof.
  unfold CashRegister.addMovement, bind, CashRegister.selectOpen, throw, ret.
  destruct (CashRegister.openRegistersOf userId w) as [| row others].
  - cbn. split; [tauto |]. split; [reflexivity |]. intros ? ? Habs. discriminate.
  - cbn. split; [split; discriminate |]. split; [discriminate |].
    intros row' others' E. inversion E; subst.
    eexists. split; [reflexivity |]. repeat split.
Qed.

Lemma after_movements (c : Call) (w : World) :
  exists added, cash_movements (after c w) = (cash_movements w ++ added)%list.
Proof.
  destruct c as [u b | u c e | u t a k]; cbn [after].
  - destruct (CashRegister.openRegistersOf u w) eqn:E.
    + rewrite (openRegister_run _ _ _ E). eexists. reflexivity.
    + rewrite openRegister_refused by (rewrite E; discriminate).
      exists []. now rewrite app_nil_r.
  - destruct (CashRegister.openRegistersOf u w) as [| row others] eqn:E.
    + rewrite closeRegister_refused by assumption. exists []. now rewrite app_nil_r.
    + rewrite (closeRegister_accepted _ _ _ _ _ _ E). exists [].
      cbn. now rewrite app_nil_r.
  - unfold CashRegister.addMovement, bind, CashRegister.selectOpen, throw, ret.
    destruct (CashRegister.openRegistersOf u w).
    + exists []. cbn. now rewrite app_nil_r.
    + eexists. cbn. reflexivity.
Qed.

(** X13: the movement ledger is append-only: after any sequence of
    openRegister, closeRegister and addMovement calls the movements that
    were there are still there, unchanged and in place, followed by the
    new ones. *)
Theorem movements_append_only (calls : list Call) : forall w,
  exists added, cash_movements (afterAll calls w) = (cash_movements w ++ added)%list.
Proof.
  induction calls as [| c calls IH]; intros w; cbn [afterAll fold_left].
  - exists []. now rewrite app_nil_r.
  - destruct (after_movements c w) as [a1 H1].
    destruct (IH (after c w)) as [a2 H2]. unfold afterAll in H2.
    exists (a1 ++ a2)%list. now rewrite H2, H1, app_assoc.
Qed.

Lemma insertBy_sorted {A} (le : A -> A -> bool) (x : A) (l : list A) :
  (forall a b, le a b = false -> le b a = true) ->
  Sorted (fun a b => le a b = true) l ->
  Sorted (fun a b => le a b = true) (insertBy le x l).
Proof.
  intros Htotal Hsorted. induction l as [| y l IH]; simpl.
  - repeat constructor.
  - destruct (le x y) eqn:E.
    + constructor; [assumption | now constructor].
    + inversion Hsorted as [| ? ? Hl Hy]; subst.
      constructor; [now apply IH |].
      destruct l as [| z l]; simpl.
      * constructor. now apply Htotal.
      * destruct (le x z); constructor.
        -- now apply Htotal.
        -- now inversion Hy.
Qed.

Lemma sortBy_sorted {A} (le : A -> A -> bool) (l : list A) :
  (forall a b, le a b = false -> le b a = true) ->
  Sorted (fun a b => le a b = true) (sortBy le l).
Proof.
  intros Htotal. induction l as [| x l IH]; simpl; [constructor |].
  now apply insertBy_sorted.
Qed.

Lemma Sorted_map {A B} (f : A -> B) (R : B -> B -> Prop) (l : list A) :
  Sorted (fun a b => R (f a) (f b)) l -> Sorted R (map f l).
Proof.
  induction 1 as [| x l Hl IH Hx]; simpl; constructor; [assumption |].
  destruct Hx; simpl; constructor; assumption.
Qed.


(** X15: getHistory returns closed registers only, the most recently
    closed first. *)
Theorem getHistory_closed_newest_first (w : World) :
  exists history,
    CashRegister.getHistory w = (Ok history, w)
    /\ (forall reg, In reg history -> CashRegister.status reg = cerrada)
    /\ Sorted (fun a b => laterOrEqual (CashRegister.closedAt a) (CashRegister.closedAt b)
                          = true) history.
Proof.
  unfold CashRegister.getHistory, bind, CashRegister.selectHistory, ret.
  eexists. split; [reflexivity |]. split.
  - intros reg Hreg. apply in_map_iff in Hreg.
    destruct Hreg as ([[row o] c] & <- & Hin). cbn.
    eapply Permutation_in in Hin; [| apply sortBy_perm].
    apply in_flat_map in Hin. destruct Hin as (r & Hr & Hin).
    apply in_flat_map in Hin. destruct Hin as (o' & _ & Hin).
    apply in_map_iff in Hin. destruct Hin as (c' & Hc & _).
    inversion Hc; subst r o' c'.
    apply filter_In in Hr. destruct Hr as [_ Hclosed].
    unfold CashRegister.isOpen in Hclosed.
    destruct (r_status row); [discriminate | reflexivity].
  - apply Sorted_map. cbn [CashRegister.closedAt CashRegister.toCashRegister].
    apply (sortBy_sorted
             (fun a b => laterOrEqual (r_closed_at (fst (fst a))) (r_closed_at (fst (fst b))))).
    intros a b. unfold laterOrEqual.
    destruct (r_closed_at (fst (fst a))), (r_closed_at (fst (fst b)));
      try discriminate; try reflexivity.
    intros H. apply Nat.leb_le. apply Nat.leb_gt in H. lia.
Qed.

(** X16: in a store reached from one without registers, after a
    successful closeRegister the user has no movements to list, and a new
    openRegister succeeds with an identifier that no existing register
    carries: opening again creates a new register and leaves the closed
    one as it is. *)
Theorem reopening_creates_new_register (start : World) (calls : list Call)
    (userId : string) (closing expected balance : number) (w' : World) :
  cash_registers start = [] ->
  CashRegister.closeRegister userId closing expected (afterAll calls start) = (Ok tt, w') ->
  exists id w'',
    CashRegister.openRegister userId balance w' = (Ok id, w'')
    /\ (forall row, In row (cash_registers w') -> r_id row <> id)
    /\ cash_registers w'' = (cash_registers w' ++ [opened userId balance w'])%list
    /\ CashRegister.getMovements userId w' = (Ok [], w').
Proof.
  intros Hstart Hclose.
  pose proof (afterAll_consistent calls start (no_registers_consistent start Hstart)) as Hw.
  pose proof (close_consistent userId closing expected _ Hw) as Hw'.
  rewrite Hclose in Hw'. cbn [snd] in Hw'.
  assert (Hnone : CashRegister.openRegistersOf userId w' = []).
  { destruct Hw as (Hone & _). specialize (Hone userId).
    destruct (CashRegister.openRegistersOf userId (afterAll calls start))
      as [| row others] eqn:E.
    - rewrite closeRegister_refused in Hclose by assumption. discriminate.
    - destruct others; [| simpl in Hone; lia].
      pose proof (closed_targets_gone userId closing expected _ row E) as Hgone.
      now rewrite Hclose in Hgone. }
  destruct (openRegister_accepted userId balance w' Hnone) as (w'' & Hrun & Hregs & _).
  exists (uuidOf (uuids w')), w''. split; [exact Hrun |]. split; [| split].
  - intros row Hin Hid. destruct Hw' as (_ & _ & Hissued).
    destruct (Hissued row Hin) as (n & Hlt & Hn). rewrite Hn in Hid.
    apply uuidOf_injective in Hid. lia.
  - exact Hregs.
  - unfold CashRegister.getMovements, bind, CashRegister.selectOpen, ret.
    now rewrite Hnone.
Qed.

(** X17: whether a difference counts as exact does not depend on its
    sign: isExactBalance(a - b) = isExactBalance(b - a). *)
Theorem isExactBalance_symmetric (a b : number) :
  CashRegister.isExactBalance (sub a b) = CashRegister.isExactBalance (sub b a).
Proof.
  destruct a as [| s | p], b as [| t | q]; try reflexivity.
  - simpl. destruct s, t; reflexivity.
  - unfold sub, CashRegister.isExactBalance. f_equal.
    apply Qleb_comp; [reflexivity |].
    rewrite !Qred_correct.
    setoid_replace (q - p)%Q with (- (p - q))%Q by ring.
    now rewrite Qabs_opp.
Qed.

Lemma split_blankFree (s : string) : blankFree s = true -> Auth.split s = [s].
Proof.
  induction s as [| c s IH]; simpl; [reflexivity |].
  intros H. apply andb_true_iff in H. destruct H as [Hc Hs].
  apply negb_true_iff in Hc. rewrite Hc, (IH Hs). reflexivity.
Qed.

Lemma split_append (scheme rest : string) :
  blankFree scheme = true ->
  Auth.split (scheme ++ " " ++ rest) = scheme :: Auth.split rest.
Proof.
  induction scheme as [| c s IH]; simpl.
  - reflexivity.
  - intros H. apply andb_true_iff in H. destruct H as [Hc Hs].
    apply negb_true_iff in Hc. rewrite Hc. simpl in IH. rewrite (IH Hs). reflexivity.
Qed.

Lemma split_head (s : string) : exists word words, Auth.split s = word :: words.
Proof.
  induction s as [| c s IH]; simpl.
  - eauto.
  - destruct (Ascii.eqb c " "); [eauto |].
    destruct IH as (word & words & ->). eauto.
Qed.

Lemma tokenOf_scheme (scheme token : string) :
  blankFree scheme = true -> blankFree token = true ->
  Auth.tokenOf (Some (scheme ++ " " ++ token)) = Some token.
Proof.
  intros Hs Ht. unfold Auth.tokenOf.
  destruct (String.eqb_spec (scheme ++ " " ++ token) "") as [E | _].
  - destruct scheme; discriminate.
  - rewrite split_append, split_blankFree by assumption. reflexivity.
Qed.

(** X18: authenticateToken answers 401 without consulting jwt.verify when
    there is no authorization header, when the header has no blank, and
    when two blanks follow the first word; for a header "scheme token" it
    hands the token to jwt.verify whatever the scheme word is, answering
    403 on an error and calling next() with the decoded payload otherwise;
    and it calls next() only with a payload that jwt.verify returned for a
    non-empty token. *)
Theorem authenticateToken_replies
    (verify : string -> string -> option Auth.JwtPayload) (env : option string) :
  Auth.authenticateToken verify env None = Auth.SendStatus 401
  /\ (forall header, blankFree header = true ->
        Auth.authenticateToken verify env (Some header) = Auth.SendStatus 401)
  /\ (forall scheme rest, blankFree scheme = true ->
        Auth.authenticateToken verify env (Some (scheme ++ "  " ++ rest))
        = Auth.SendStatus 401)
  /\ (forall scheme token, blankFree scheme = true -> blankFree token = true ->
        token <> "" ->
        Auth.authenticateToken verify env (Some (scheme ++ " " ++ token))
        = match verify token (Auth.JWT_SECRET env) with
          | Some decoded => Auth.Next (Some decoded)
          | None => Auth.SendStatus 403
          end)
  /\ (forall header user,
        Auth.authenticateToken verify env header = Auth.Next user ->
        exists token decoded,
          token <> "" /\ verify token (Auth.JWT_SECRET env) = Some decoded
          /\ user = Some decoded).
Proof.
  split; [reflexivity |]. split; [| split; [| split]].
  - intros header Hb. unfold Auth.authenticateToken, Auth.tokenOf.
    destruct (String.eqb header ""); [reflexivity |].
    now rewrite split_blankFree.
  - intros scheme rest Hs. unfold Auth.authenticateToken, Auth.tokenOf.
    destruct (String.eqb_spec (scheme ++ "  " ++ rest) "") as [E | _]; [reflexivity |].
    change (scheme ++ "  " ++ rest) with (scheme ++ " " ++ (String " " rest)).
    rewrite split_append by assumption. cbn. reflexivity.
  - intros scheme token Hs Ht Hne. unfold Auth.authenticateToken.
    rewrite tokenOf_scheme by assumption.
    apply String.eqb_neq in Hne. now rewrite Hne.
  - intros header user H. unfold Auth.authenticateToken in H.
    destruct (Auth.tokenOf header) as [token |]; [| discriminate].
    destruct (String.eqb_spec token "") as [E | E]; [discriminate |].
    destruct (verify token (Auth.JWT_SECRET env)) as [decoded |] eqn:Hv;
      [| discriminate].
    inversion H. eauto.
Qed.

(** X19: requireRole calls next() exactly when the request carries a user
    whose role is in the allowed list, answers 401 exactly when it carries
    no user, and with an empty list never calls next(). *)
Theorem requireRole_admits (allowedRoles : list string) (user : option Auth.JwtPayload) :
  (Auth.requireRole allowedRoles user = Auth.Next user
   <-> exists u, user = Some u /\ In (Auth.role u) allowedRoles)
  /\ (Auth.requireRole allowedRoles user = Auth.SendStatus 401 <-> user = None)
  /\ Auth.requireRole [] user <> Auth.Next user.
Proof.
  unfold Auth.requireRole. destruct user as [u |].
  - destruct (existsb (String.eqb (Auth.role u)) allowedRoles) eqn:E; cbn [negb].
    + apply existsb_exists in E. destruct E as (r & Hr & Heq).
      apply String.eqb_eq in Heq. subst r.
      split; [| split].
      * split; [eauto | reflexivity].
      * split; discriminate.
      * cbn. discriminate.
    + split; [| split].
      * split; [discriminate |]. intros (u' & Hu & Hin). inversion Hu; subst u'.
        assert (Hex : existsb (String.eqb (Auth.role u)) allowedRoles = true).
        { apply existsb_exists. exists (Auth.role u). split; [assumption |].
          apply String.eqb_refl. }
        congruence.
      * split; discriminate.
      * cbn. discriminate.
  - split; [| split].
    + split; [discriminate |]. intros (u & Hu & _). discriminate.
    + tauto.
    + discriminate.
Qed.

(** X20: a route guarded by authenticateToken and then requireRole is
    reached only with the token of the authorization header verified and
    the role of the decoded payload in the allowed list. *)
Theorem guarded_route_admits
    (verify : string -> string -> option Auth.JwtPayload) (env : option string)
    (allowedRoles : list string) (authHeader : option string) (user : option Auth.JwtPayload) :
  Auth.guarded verify env allowedRoles authHeader = Auth.Next user ->
  exists token decoded,
    verify token (Auth.JWT_SECRET env) = Some decoded
    /\ user = Some decoded
    /\ In (Auth.role decoded) allowedRoles
    /\ Auth.tokenOf authHeader = Some token.
Proof.
  unfold Auth.guarded, Auth.authenticateToken.
  destruct (Auth.tokenOf authHeader) as [token |]; [| discriminate].
  destruct (String.eqb token ""); [discriminate |].
  destruct (verify token (Auth.JWT_SECRET env)) as [decoded |] eqn:Hv; [| discriminate].
  unfold Auth.requireRole.
  destruct (existsb (String.eqb (Auth.role decoded)) allowedRoles) eqn:E; cbn [negb];
    [| discriminate].
  intros H. inversion H; subst user.
  apply existsb_exists in E. destruct E as (r & Hr & Heq).
  apply String.eqb_eq in Heq. subst r.
  exists token, decoded. auto.
Qed.



(** *** The properties at work on sample data *)

Lemma accepted_input_parses_witness :
  gtZero (parseFloat (lookup "price" blouseFields)) = true
  /\ Inventory.parseCost (lookup "cost" blouseFields) = VNum (int 80).
Proof.
  destruct (accepted_input_parses blouseFields Inventory.accept) as (Hprice & _ & _).
  - reflexivity.
  - reflexivity.
  - split; [exact Hprice | reflexivity].
Defined.



Lemma getProductWithSizes_missing_witness :
  fst (Inventory.getProductWithSizes "uuid-9" (storeWith (garment 7 false []))) = Ok None.
Proof.
  destruct (getProductWithSizes_missing "uuid-9" (storeWith (garment 7 false [])))
    as (_ & Hnone & _).
  apply Hnone. intros row [<- | []]. discriminate.
Defined.

Lemma updateStockSimple_composes_witness :
  products (snd (Inventory.updateStockSimple "uuid-0" (VNum (int (-3)))
                   (snd (Inventory.updateStockSimple "uuid-0" (VNum (int 3))
                           (storeWith (garment 7 false []))))))
  = products (storeWith (garment 7 false [])).
Proof.
  apply (proj2 (updateStockSimple_composes "uuid-0" 3 (-3) (storeWith (garment 7 false [])))).
  reflexivity.
Defined.

Lemma updateStockBySize_moves_total_witness :
  exists w',
    Inventory.updateStockBySize "uuid-0" (VStr "M") (VNum (int (-6)))
      (storeWith (garment 0 true [("S", 3); ("M", 5)])) = (Ok tt, w')
    /\ forall row, In row (products w') -> p_id row = "uuid-0" -> p_stock row = 2.
Proof.
  destruct (updateStockBySize_moves_total "uuid-0" "M" (-6)
              (storeWith (garment 0 true [("S", 3); ("M", 5)])))
    as (w' & Hrun & _ & Hstock & _).
  exists w'. split; [exact Hrun |].
  intros row Hin Hid. rewrite (Hstock row Hin Hid). reflexivity.
Defined.


Lemma createProduct_rejects_invalid_witness :
  InventoryController.createProduct negativeCostRequest emptyWorld
  = (Ok {| InventoryController.status := 400;
           InventoryController.message := Some Inventory.invalidCost;
           InventoryController.created := None |}, emptyWorld).
Proof.
  apply (createProduct_rejects_invalid negativeCostRequest emptyWorld
           (Inventory.reject Inventory.invalidCost)).
  - reflexivity.
  - reflexivity.
Defined.


Lemma updateStock_handler_silent_witness :
  exists w',
    InventoryController.updateStock
      {| InventoryController.params_id := "uuid-0";
         InventoryController.body := VObj [("quantity", VNum (int 5))] |}
      (storeWith (garment 0 true [("S", 3); ("M", 5)]))
    = (Ok (InventoryController.respond 200 "Stock actualizado exitosamente"), w')
    /\ products w' = products (storeWith (garment 0 true [("S", 3); ("M", 5)])).
Proof.
  destruct (updateStock_handler_silent
              {| InventoryController.params_id := "uuid-0";
                 InventoryController.body := VObj [("quantity", VNum (int 5))] |}
              5 (storeWith (garment 0 true [("S", 3); ("M", 5)])))
    as (w' & Hrun & Hp & _).
  - reflexivity.
  - intros row [<- | []] _. reflexivity.
  - exists w'. split; assumption.
Defined.


Lemma openRegister_then_current_witness :
  exists w' reg,
    CashRegister.openRegister "u1" (int 100) emptyWorld = (Ok "uuid-0", w')
    /\ fst (CashRegister.getCurrentRegister "u1" w') = Ok (Some reg)
    /\ CashRegister.openingBalance reg = int 100.
Proof.
  destruct (openRegister_then_current "u1" (int 100) emptyWorld)
    as (w' & reg & Hrun & _ & Hget & _ & _ & Hbalance & _).
  - reflexivity.
  - exists w', reg. repeat split; assumption.
Defined.

Lemma addMovement_contract_witness :
  exists w',
    CashRegister.addMovement "u1" salida (int 20) "petty cash"
      (snd (CashRegister.openRegister "u1" (int 100) emptyWorld)) = (Ok "uuid-2", w')
    /\ cash_registers w'
       = cash_registers (snd (CashRegister.openRegister "u1" (int 100) emptyWorld)).
Proof.
  destruct (addMovement_contract "u1" salida (int 20) "petty cash"
              (snd (CashRegister.openRegister "u1" (int 100) emptyWorld)))
    as (_ & _ & Hadd).
  destruct (Hadd _ _ eq_refl) as (w' & Hrun & _ & Hregs & _).
  exists w'. split; assumption.
Defined.


Lemma getHistory_closed_newest_first_witness :
  exists history,
    CashRegister.getHistory
      (afterAll (shift ++ [CallClose "u1" (int 78) (int 80)]) emptyWorld)
    = (Ok history, afterAll (shift ++ [CallClose "u1" (int 78) (int 80)]) emptyWorld)
    /\ forall reg, In reg history -> CashRegister.status reg = cerrada.
Proof.
  destruct (getHistory_closed_newest_first
              (afterAll (shift ++ [CallClose "u1" (int 78) (int 80)]) emptyWorld))
    as (history & Hrun & Hclosed & _).
  exists history. split; assumption.
Defined.

Lemma reopening_creates_new_register_witness :
  exists id w'',
    CashRegister.openRegister "u1" (int 50)
      (snd (CashRegister.closeRegister "u1" (int 78) (int 80) (afterAll shift emptyWorld)))
    = (Ok id, w'')
    /\ forall row,
         In row (cash_registers
                   (snd (CashRegister.closeRegister "u1" (int 78) (int 80)
                           (afterAll shift emptyWorld)))) ->
         r_id row <> id.
Proof.
  destruct (reopening_creates_new_register emptyWorld shift "u1" (int 78) (int 80) (int 50)
              (snd (CashRegister.closeRegister "u1" (int 78) (int 80)
                      (afterAll shift emptyWorld))))
    as (id & w'' & Hrun & Hnew & _).
  - reflexivity.
  - reflexivity.
  - exists id, w''. split; assumption.
Defined.

Lemma authenticateToken_replies_witness :
  Auth.authenticateToken acceptGood None (Some "Bearer") = Auth.SendStatus 401
  /\ Auth.authenticateToken acceptGood None (Some "Bearer good") = Auth.Next (Some cashier)
  /\ Auth.authenticateToken acceptGood None (Some "Basic bad") = Auth.SendStatus 403.
Proof.
  destruct (authenticateToken_replies acceptGood None) as (_ & Hbare & _ & Htoken & _).
  split; [| split].
  - apply Hbare. reflexivity.
  - apply (Htoken "Bearer" "good"); [reflexivity | reflexivity | discriminate].
  - apply (Htoken "Basic" "bad"); [reflexivity | reflexivity | discriminate].
Defined.

Lemma requireRole_admits_witness :
  Auth.requireRole ["admin"; "cajero"] (Some cashier) = Auth.Next (Some cashier).
Proof.
  apply (proj1 (requireRole_admits ["admin"; "cajero"] (Some cashier))).
  exists cashier. split; [reflexivity |]. right. left. reflexivity.
Defined.

Lemma guarded_route_admits_witness :
  exists token decoded,
    acceptGood token (Auth.JWT_SECRET None) = Some decoded
    /\ In (Auth.role decoded) ["cajero"].
Proof.
  destruct (guarded_route_admits acceptGood None ["cajero"] (Some "Bearer good")
              (Some cashier))
    as (token & decoded & Hv & _ & Hrole & _).
  - reflexivity.
  - exists token, decoded. split; assumption.
Defined.
